(** * BloomyEthernet: the interface manager of [src/Ethernet.cpp]

    A shallow embedding of [EthernetClass]: the bring-up overloads, the
    address accessors and mutators, the identity and link mappers and the
    maintenance step.  Every member function is a computation in a small
    state-and-trace monad: the state is the object's fields, the trace is
    the sequence of calls the manager makes into its collaborators (the SPI
    bus, the W5100 chip driver, the DHCP negotiator). *)

From Stdlib Require Import ZArith List Bool Lia.
Import ListNotations.
Open Scope Z_scope.

(** ** Address value types *)

(** Modelled from the spec: [IPAddress] (Arduino core, not in src/) is the
    four-octet address value with component access; [IPAddress(a,b,c,d)] is
    the constructor [mkIP a b c d]. *)
Record IPAddress : Type := mkIP { oct0 : Z; oct1 : Z; oct2 : Z; oct3 : Z }.

(** The four valid subscripts of [operator[]]. *)
Inductive octet_index : Type := Oct0 | Oct1 | Oct2 | Oct3.

(** [a[i] = v] on an [IPAddress]. *)
Definition ip_set (a : IPAddress) (i : octet_index) (v : Z) : IPAddress :=
  match i with
  | Oct0 => mkIP v (oct1 a) (oct2 a) (oct3 a)
  | Oct1 => mkIP (oct0 a) v (oct2 a) (oct3 a)
  | Oct2 => mkIP (oct0 a) (oct1 a) v (oct3 a)
  | Oct3 => mkIP (oct0 a) (oct1 a) (oct2 a) v
  end.

(** A MAC address is passed as [uint8_t *]: the bytes it points to. *)
Definition MACAddress : Type := list Z.

(** Conversion of an [int] expression to a [uint16_t] parameter. *)
Definition to_uint16 (z : Z) : Z := z mod 65536.

(** ** The chip driver *)

(** Values of [W5100Linkstatus] and of the two enumerations the manager
    returns. *)
Inductive W5100Linkstatus : Type := UNKNOWN | LINK_ON | LINK_OFF.
Inductive EthernetLinkStatus : Type := Unknown | LinkON | LinkOFF.
Inductive EthernetHardwareStatus : Type :=
  EthernetNoHardware | EthernetW5100 | EthernetW5200 | EthernetW5500.

(** Modelled from the spec: [W5100Class] (utility/w5100.h, not in src/) is
    the register-level accessor for MAC, IP, gateway and subnet-mask
    registers, the retransmission registers, the chip identity and the link
    state.  Each setter stores its argument in the register, each getter reads
    it back. *)
Record W5100Class : Type := mkW5100 {
  chip : Z;
  link : W5100Linkstatus;
  SHAR : MACAddress;
  SIPR : IPAddress;
  GAR : IPAddress;
  SUBR : IPAddress;
  RTR : Z;
  RCR : Z
}.

Definition with_SHAR (w : W5100Class) (m : MACAddress) : W5100Class :=
  mkW5100 (chip w) (link w) m (SIPR w) (GAR w) (SUBR w) (RTR w) (RCR w).
Definition with_SIPR (w : W5100Class) (a : IPAddress) : W5100Class :=
  mkW5100 (chip w) (link w) (SHAR w) a (GAR w) (SUBR w) (RTR w) (RCR w).
Definition with_GAR (w : W5100Class) (a : IPAddress) : W5100Class :=
  mkW5100 (chip w) (link w) (SHAR w) (SIPR w) a (SUBR w) (RTR w) (RCR w).
Definition with_SUBR (w : W5100Class) (a : IPAddress) : W5100Class :=
  mkW5100 (chip w) (link w) (SHAR w) (SIPR w) (GAR w) a (RTR w) (RCR w).
Definition with_RTR (w : W5100Class) (t : Z) : W5100Class :=
  mkW5100 (chip w) (link w) (SHAR w) (SIPR w) (GAR w) (SUBR w) t (RCR w).
Definition with_RCR (w : W5100Class) (n : Z) : W5100Class :=
  mkW5100 (chip w) (link w) (SHAR w) (SIPR w) (GAR w) (SUBR w) (RTR w) n.

(** ** The trace of collaborator calls *)

(** One constructor per chip-driver member function the manager calls. *)
Inductive chip_call : Type :=
| init_call
| setMACAddress_call (mac : MACAddress)
| setIPAddress_call (a : IPAddress)
| setGatewayIp_call (a : IPAddress)
| setSubnetMask_call (a : IPAddress)
| getMACAddress_call
| getIPAddress_call
| getGatewayIp_call
| getSubnetMask_call
| getLinkStatus_call
| getChip_call
| setRetransmissionTime_call (t : Z)
| setRetransmissionCount_call (n : Z).

Inductive event : Type :=
| beginTransaction                       (* _spibus.beginTransaction(...) *)
| endTransaction                         (* _spibus.endTransaction() *)
| w5100 (c : chip_call)                  (* _w5100.<c>(...) *)
| new_DhcpClass                          (* new DhcpClass( *this ) *)
| delete_DhcpClass                       (* delete _dhcp *)
| beginWithDHCP_call (mac : MACAddress) (timeout responseTimeout : Z)
| checkLease_call
| socketPortRand (seed : Z).

(** A chip call that writes an address or tuning register. *)
Definition is_register_write (c : chip_call) : bool :=
  match c with
  | setMACAddress_call _ | setIPAddress_call _ | setGatewayIp_call _
  | setSubnetMask_call _ | setRetransmissionTime_call _
  | setRetransmissionCount_call _ => true
  | _ => false
  end.

Definition is_write_event (e : event) : bool :=
  match e with w5100 c => is_register_write c | _ => false end.

Definition is_acquire (e : event) : bool :=
  match e with beginTransaction => true | _ => false end.

Definition is_release (e : event) : bool :=
  match e with endTransaction => true | _ => false end.

Definition is_new (e : event) : bool :=
  match e with new_DhcpClass => true | _ => false end.

Definition is_delete (e : event) : bool :=
  match e with delete_DhcpClass => true | _ => false end.

Definition is_negotiator_call (e : event) : bool :=
  match e with
  | beginWithDHCP_call _ _ _ | checkLease_call => true
  | _ => false
  end.

Definition count (p : event -> bool) (t : list event) : nat :=
  length (filter p t).

(** Bus acquisitions still open after the trace [t], starting from [n]. *)
Fixpoint open_after (n : nat) (t : list event) : nat :=
  match t with
  | [] => n
  | beginTransaction :: t' => open_after (S n) t'
  | endTransaction :: t' => open_after (pred n) t'
  | _ :: t' => open_after n t'
  end.

(** ** The lease negotiator *)

(** Modelled from the spec: [DhcpClass] (Dhcp.h, not in src/) performs the
    acquisition and renewal exchanges on the chip, reports an [int] outcome
    and exposes the negotiated address set.  Its state type, its member
    functions and the [DHCP_CHECK_*] codes are parameters of the manager. *)
Class LeaseNegotiator (D : Type) : Type := {
  DhcpClass_ctor : D;
  beginWithDHCP : D -> MACAddress -> Z -> Z -> W5100Class -> Z * D * W5100Class;
  checkLease : D -> W5100Class -> Z * D * W5100Class;
  getLocalIp : D -> IPAddress;
  getGatewayIp : D -> IPAddress;
  getSubnetMask : D -> IPAddress;
  getDnsServerIp : D -> IPAddress;
  DHCP_CHECK_NONE : Z;
  DHCP_CHECK_RENEW_OK : Z;
  DHCP_CHECK_REBIND_OK : Z
}.

(** ** Member functions as computations *)

(** A member function on an object of type [S]: result, new object state,
    calls made, in program order. *)
Definition M (S A : Type) : Type := S -> A * S * list event.

Definition ret {S A : Type} (a : A) : M S A := fun s => (a, s, []).

Definition bind {S A B : Type} (m : M S A) (k : A -> M S B) : M S B :=
  fun s =>
    let '(a, s1, t1) := m s in
    let '(b, s2, t2) := k a s1 in
    (b, s2, t1 ++ t2).

Notation "x <- m ;; k" := (bind m (fun x => k))
  (at level 61, m at next level, right associativity).
Notation "m ;; k" := (bind m (fun _ => k))
  (at level 61, right associativity).

Definition emit {S : Type} (e : event) : M S unit := fun s => (tt, s, [e]).

Definition result {S A : Type} (r : A * S * list event) : A := fst (fst r).
Definition state {S A : Type} (r : A * S * list event) : S := snd (fst r).
Definition trace {S A : Type} (r : A * S * list event) : list event := snd r.

(** ** The manager *)

(** The fields of [EthernetClass] the member functions read or write.
    [_dhcp] is the owned pointer: [None] is [nullptr], [Some d] points to a
    negotiator in state [d].  [_spibus] is a reference to the shared bus; the
    manager's use of it is the [beginTransaction]/[endTransaction] events. *)
Record EthernetClass (DhcpClass : Type) : Type := mkEthernet {
  _dnsServerAddress : IPAddress;
  _dhcp : option DhcpClass;
  _w5100 : W5100Class
}.
Arguments mkEthernet {DhcpClass} _ _ _.
Arguments _dnsServerAddress {DhcpClass} _.
Arguments _dhcp {DhcpClass} _.
Arguments _w5100 {DhcpClass} _.

(** ** A scripted negotiator and a responding chip

    A concrete negotiator whose outcomes are fixed in advance: the bring-up
    outcome and offer, then one outcome and lease per lease check.  The check
    codes are those of the Arduino Ethernet library's Dhcp.h. *)

Record Lease : Type := mkLease {
  lease_ip : IPAddress;
  lease_gateway : IPAddress;
  lease_mask : IPAddress;
  lease_dns : IPAddress
}.

Record ScriptedDhcp : Type := mkScripted {
  held_lease : Lease;
  begin_outcome : Z;
  begin_offer : Lease;
  check_script : list (Z * Lease)
}.

Definition no_lease : Lease :=
  mkLease (mkIP 0 0 0 0) (mkIP 0 0 0 0) (mkIP 0 0 0 0) (mkIP 0 0 0 0).

Definition scripted_begin (d : ScriptedDhcp) (mac : MACAddress)
    (timeout responseTimeout : Z) (w : W5100Class) : Z * ScriptedDhcp * W5100Class :=
  (begin_outcome d,
   mkScripted (if begin_outcome d =? 1 then begin_offer d else held_lease d)
              (begin_outcome d) (begin_offer d) (check_script d),
   w).

Definition scripted_check (d : ScriptedDhcp) (w : W5100Class)
    : Z * ScriptedDhcp * W5100Class :=
  match check_script d with
  | [] => (0, d, w)
  | (rc, l) :: rest =>
      (rc,
       mkScripted (if (rc =? 2) || (rc =? 4) then l else held_lease d)
                  (begin_outcome d) (begin_offer d) rest,
       w)
  end.

Definition scripted (outcome : Z) (offer : Lease) (script : list (Z * Lease))
    : LeaseNegotiator ScriptedDhcp :=
  {| DhcpClass_ctor := mkScripted no_lease outcome offer script;
     beginWithDHCP := scripted_begin;
     checkLease := scripted_check;
     getLocalIp := fun d => lease_ip (held_lease d);
     getGatewayIp := fun d => lease_gateway (held_lease d);
     getSubnetMask := fun d => lease_mask (held_lease d);
     getDnsServerIp := fun d => lease_dns (held_lease d);
     DHCP_CHECK_NONE := 0;
     DHCP_CHECK_RENEW_OK := 2;
     DHCP_CHECK_REBIND_OK := 4 |}.

Definition lease_10_0_0_5 : Lease :=
  mkLease (mkIP 10 0 0 5) (mkIP 10 0 0 1) (mkIP 255 255 255 0) (mkIP 8 8 8 8).

Definition lease_10_0_0_9 : Lease :=
  mkLease (mkIP 10 0 0 9) (mkIP 10 0 0 1) (mkIP 255 255 255 0) (mkIP 8 8 4 4).

(** Bring-up succeeds with 10.0.0.5; the first lease check reports a rebind
    to 10.0.0.9, the second an error. *)
Definition demo_negotiator : LeaseNegotiator ScriptedDhcp :=
  scripted 1 lease_10_0_0_5 [(4, lease_10_0_0_9); (3, no_lease)].

(** A chip that answers [init] as a W5500, and one that does not answer. *)
Definition init_responding (w : W5100Class) : Z * W5100Class :=
  (1, mkW5100 55 (link w) (SHAR w) (SIPR w) (GAR w) (SUBR w) (RTR w) (RCR w)).

Definition init_silent (w : W5100Class) : Z * W5100Class := (0, w).

(** The driver object before [init]. *)
Definition blank_chip : W5100Class :=
  mkW5100 0 UNKNOWN [] (mkIP 0 0 0 0) (mkIP 0 0 0 0) (mkIP 0 0 0 0) 0 0.

Definition demo_mac : MACAddress := [222; 173; 190; 239; 254; 237].

(** A freshly constructed object on the blank chip, and the object after a
    successful DHCP bring-up with [demo_negotiator] on the responding chip. *)
Definition demo_fresh : EthernetClass ScriptedDhcp :=
  mkEthernet (mkIP 0 0 0 0) None blank_chip.

Definition demo_bound_negotiator : ScriptedDhcp :=
  mkScripted lease_10_0_0_5 1 lease_10_0_0_5 [(4, lease_10_0_0_9); (3, no_lease)].

Definition demo_bound : EthernetClass ScriptedDhcp :=
  mkEthernet (mkIP 8 8 8 8) (Some demo_bound_negotiator)
    (mkW5100 55 UNKNOWN demo_mac (mkIP 10 0 0 5) (mkIP 10 0 0 1)
       (mkIP 255 255 255 0) 0 0).

(** An object whose chip driver reports the identity code 0x51 (81), and
    one whose driver reports 51. *)
Definition chip_0x51_object : EthernetClass ScriptedDhcp :=
  mkEthernet (mkIP 0 0 0 0) None
    (mkW5100 0x51 UNKNOWN [] (mkIP 0 0 0 0) (mkIP 0 0 0 0) (mkIP 0 0 0 0) 0 0).

Definition chip_51_object : EthernetClass ScriptedDhcp :=
  mkEthernet (mkIP 0 0 0 0) None
    (mkW5100 51 UNKNOWN [] (mkIP 0 0 0 0) (mkIP 0 0 0 0) (mkIP 0 0 0 0) 0 0).


Section Manager.

Context {DhcpClass : Type} {negotiator : LeaseNegotiator DhcpClass}.

(** [_w5100.init()]: the outcome (0 when the chip does not answer) and the
    driver state it leaves. *)
Variable W5100_init : W5100Class -> Z * W5100Class.

Local Abbreviation Eth := (EthernetClass DhcpClass).

(** *** Field access *)

Definition get_dhcp : M Eth (option DhcpClass) := fun s => (_dhcp s, s, []).

Definition set_dnsServerAddress (a : IPAddress) : M Eth unit :=
  fun s => (tt, mkEthernet a (_dhcp s) (_w5100 s), []).

Definition set_dhcp (d : DhcpClass) : M Eth unit :=
  fun s => (tt, mkEthernet (_dnsServerAddress s) (Some d) (_w5100 s), []).

(** *** Calls into the bus and the chip driver *)

Definition spibus_beginTransaction : M Eth unit := emit beginTransaction.
Definition spibus_endTransaction : M Eth unit := emit endTransaction.

(** A chip-driver call [c] that reads [f] and leaves the driver in state
    [g]. *)
Definition w5100_call {A : Type} (c : chip_call)
    (f : W5100Class -> A) (g : W5100Class -> W5100Class) : M Eth A :=
  fun s =>
    (f (_w5100 s),
     mkEthernet (_dnsServerAddress s) (_dhcp s) (g (_w5100 s)),
     [w5100 c]).

Definition w5100_init : M Eth Z :=
  w5100_call init_call (fun w => fst (W5100_init w)) (fun w => snd (W5100_init w)).

Definition w5100_setMACAddress (mac : MACAddress) : M Eth unit :=
  w5100_call (setMACAddress_call mac) (fun _ => tt) (fun w => with_SHAR w mac).
Definition w5100_setIPAddress (a : IPAddress) : M Eth unit :=
  w5100_call (setIPAddress_call a) (fun _ => tt) (fun w => with_SIPR w a).
Definition w5100_setGatewayIp (a : IPAddress) : M Eth unit :=
  w5100_call (setGatewayIp_call a) (fun _ => tt) (fun w => with_GAR w a).
Definition w5100_setSubnetMask (a : IPAddress) : M Eth unit :=
  w5100_call (setSubnetMask_call a) (fun _ => tt) (fun w => with_SUBR w a).
Definition w5100_setRetransmissionTime (t : Z) : M Eth unit :=
  w5100_call (setRetransmissionTime_call t) (fun _ => tt) (fun w => with_RTR w t).
Definition w5100_setRetransmissionCount (n : Z) : M Eth unit :=
  w5100_call (setRetransmissionCount_call n) (fun _ => tt) (fun w => with_RCR w n).

Definition w5100_getMACAddress : M Eth MACAddress :=
  w5100_call getMACAddress_call SHAR (fun w => w).
Definition w5100_getIPAddress : M Eth IPAddress :=
  w5100_call getIPAddress_call SIPR (fun w => w).
Definition w5100_getGatewayIp : M Eth IPAddress :=
  w5100_call getGatewayIp_call GAR (fun w => w).
Definition w5100_getSubnetMask : M Eth IPAddress :=
  w5100_call getSubnetMask_call SUBR (fun w => w).
Definition w5100_getLinkStatus : M Eth W5100Linkstatus :=
  w5100_call getLinkStatus_call link (fun w => w).
Definition w5100_getChip : M Eth Z :=
  w5100_call getChip_call chip (fun w => w).

(** *** Calls into the negotiator *)

(** [_dhcp = new DhcpClass( *this )]. *)
Definition dhcp_new : M Eth DhcpClass :=
  emit new_DhcpClass ;; set_dhcp DhcpClass_ctor ;; ret DhcpClass_ctor.

(** [_dhcp->beginWithDHCP(mac, timeout, responseTimeout)] on the negotiator
    in state [d]: the negotiator works on its own state and on the chip. *)
Definition dhcp_beginWithDHCP (d : DhcpClass) (mac : MACAddress)
    (timeout responseTimeout : Z) : M Eth (Z * DhcpClass) :=
  fun s =>
    let '(r, d', w') := beginWithDHCP d mac timeout responseTimeout (_w5100 s) in
    ((r, d'), mkEthernet (_dnsServerAddress s) (Some d') w',
     [beginWithDHCP_call mac timeout responseTimeout]).

(** [_dhcp->checkLease()] on the negotiator in state [d]. *)
Definition dhcp_checkLease (d : DhcpClass) : M Eth (Z * DhcpClass) :=
  fun s =>
    let '(r, d', w') := checkLease d (_w5100 s) in
    ((r, d'), mkEthernet (_dnsServerAddress s) (Some d') w', [checkLease_call]).

(** *** Constructor and destructor *)

(** [EthernetClass::EthernetClass]: [_dnsServerAddress{}] and
    [_dhcp{nullptr}]; [w] is the driver object constructed on the bus. *)
Definition EthernetClass_ctor (w : W5100Class) : Eth :=
  mkEthernet (mkIP 0 0 0 0) None w.

(** [EthernetClass::~EthernetClass]. *)
Definition EthernetClass_dtor : M Eth unit :=
  d <- get_dhcp ;;
  match d with
  | Some _ => emit delete_DhcpClass
  | None => ret tt
  end.

(** *** Bring-up *)

(** [int begin(uint8_t *mac, unsigned long timeout, unsigned long
    responseTimeout)].  [now] is what [micros()] reads if it is called. *)
Definition begin_DHCP (mac : MACAddress) (timeout responseTimeout : Z)
    (now : Z) : M Eth Z :=
  p <- get_dhcp ;;
  d <- match p with
       | None => dhcp_new
       | Some d => ret d
       end ;;
  i <- w5100_init ;;
  if i =? 0 then ret 0
  else
    spibus_beginTransaction ;;
    w5100_setMACAddress mac ;;
    w5100_setIPAddress (mkIP 0 0 0 0) ;;
    spibus_endTransaction ;;
    rd <- dhcp_beginWithDHCP d mac timeout responseTimeout ;;
    let '(r, d') := rd in
    (if r =? 1 then
       spibus_beginTransaction ;;
       w5100_setIPAddress (getLocalIp d') ;;
       w5100_setGatewayIp (getGatewayIp d') ;;
       w5100_setSubnetMask (getSubnetMask d') ;;
       spibus_endTransaction ;;
       set_dnsServerAddress (getDnsServerIp d') ;;
       emit (socketPortRand now)
     else ret tt) ;;
    ret r.

(** [void begin(uint8_t *mac, IPAddress ip, IPAddress dns, IPAddress gateway,
    IPAddress subnet)].  The three preprocessor variants pass the same four
    bytes of each address. *)
Definition begin_ip_dns_gateway_subnet (mac : MACAddress)
    (ip dns gateway subnet : IPAddress) : M Eth unit :=
  i <- w5100_init ;;
  if i =? 0 then ret tt
  else
    spibus_beginTransaction ;;
    w5100_setMACAddress mac ;;
    w5100_setIPAddress ip ;;
    w5100_setGatewayIp gateway ;;
    w5100_setSubnetMask subnet ;;
    spibus_endTransaction ;;
    set_dnsServerAddress dns.

(** [void begin(uint8_t *mac, IPAddress ip, IPAddress dns, IPAddress gateway)]. *)
Definition begin_ip_dns_gateway (mac : MACAddress)
    (ip dns gateway : IPAddress) : M Eth unit :=
  let subnet := mkIP 255 255 255 0 in
  begin_ip_dns_gateway_subnet mac ip dns gateway subnet.

(** [void begin(uint8_t *mac, IPAddress ip, IPAddress dns)]. *)
Definition begin_ip_dns (mac : MACAddress) (ip dns : IPAddress) : M Eth unit :=
  let gateway := ip in
  let gateway := ip_set gateway Oct3 1 in
  begin_ip_dns_gateway mac ip dns gateway.

(** [void begin(uint8_t *mac, IPAddress ip)]. *)
Definition begin_ip (mac : MACAddress) (ip : IPAddress) : M Eth unit :=
  let dns := ip in
  let dns := ip_set dns Oct3 1 in
  begin_ip_dns mac ip dns.

(** *** Link state and hardware identity *)

(** [EthernetLinkStatus linkStatus()]: the [default] label of the switch
    returns [Unknown] as the [UNKNOWN] label does; the enumeration has no
    fourth value. *)
Definition linkStatus : M Eth EthernetLinkStatus :=
  l <- w5100_getLinkStatus ;;
  match l with
  | UNKNOWN => ret Unknown
  | LINK_ON => ret LinkON
  | LINK_OFF => ret LinkOFF
  end.

(** [EthernetHardwareStatus hardwareStatus()]: the case labels are the
    decimal literals 51, 52 and 55. *)
Definition hardwareStatus : M Eth EthernetHardwareStatus :=
  c <- w5100_getChip ;;
  if c =? 51 then ret EthernetW5100
  else if c =? 52 then ret EthernetW5200
  else if c =? 55 then ret EthernetW5500
  else ret EthernetNoHardware.

(** The identity table in the specification's words: codes 0x51, 0x52 and
    0x55 map to variants A, B and C, every other code to none. *)
Definition hardwareStatus_spec (code : Z) : EthernetHardwareStatus :=
  if code =? 0x51 then EthernetW5100
  else if code =? 0x52 then EthernetW5200
  else if code =? 0x55 then EthernetW5500
  else EthernetNoHardware.

(** *** Maintenance *)

(** [int maintain()]. *)
Definition maintain : M Eth Z :=
  let rc := DHCP_CHECK_NONE in
  p <- get_dhcp ;;
  match p with
  | Some d =>
      rd <- dhcp_checkLease d ;;
      let '(rc, d') := rd in
      (if rc =? DHCP_CHECK_NONE then ret tt
       else if (rc =? DHCP_CHECK_RENEW_OK) || (rc =? DHCP_CHECK_REBIND_OK) then
         spibus_beginTransaction ;;
         w5100_setIPAddress (getLocalIp d') ;;
         w5100_setGatewayIp (getGatewayIp d') ;;
         w5100_setSubnetMask (getSubnetMask d') ;;
         spibus_endTransaction ;;
         set_dnsServerAddress (getDnsServerIp d')
       else ret tt) ;;
      ret rc
  | None => ret rc
  end.

(** *** Accessors and mutators *)

(** [void MACAddress(uint8_t *mac_address)]: the bytes written through the
    pointer are the result. *)
Definition MACAddress_get : M Eth MACAddress :=
  spibus_beginTransaction ;;
  mac_address <- w5100_getMACAddress ;;
  spibus_endTransaction ;;
  ret mac_address.

(** [IPAddress localIP()]. *)
Definition localIP : M Eth IPAddress :=
  spibus_beginTransaction ;;
  r <- w5100_getIPAddress ;;
  spibus_endTransaction ;;
  ret r.

(** [IPAddress subnetMask()]. *)
Definition subnetMask : M Eth IPAddress :=
  spibus_beginTransaction ;;
  r <- w5100_getSubnetMask ;;
  spibus_endTransaction ;;
  ret r.

(** [IPAddress gatewayIP()]. *)
Definition gatewayIP : M Eth IPAddress :=
  spibus_beginTransaction ;;
  r <- w5100_getGatewayIp ;;
  spibus_endTransaction ;;
  ret r.

(** [void setMACAddress(const uint8_t *mac_address)]. *)
Definition setMACAddress (mac_address : MACAddress) : M Eth unit :=
  spibus_beginTransaction ;;
  w5100_setMACAddress mac_address ;;
  spibus_endTransaction.

(** [void setLocalIP(const IPAddress local_ip)]. *)
Definition setLocalIP (local_ip : IPAddress) : M Eth unit :=
  spibus_beginTransaction ;;
  let ip := local_ip in
  w5100_setIPAddress ip ;;
  spibus_endTransaction.

(** [void setSubnetMask(const IPAddress subnet)]. *)
Definition setSubnetMask (subnet : IPAddress) : M Eth unit :=
  spibus_beginTransaction ;;
  let ip := subnet in
  w5100_setSubnetMask ip ;;
  spibus_endTransaction.

(** [void setGatewayIP(const IPAddress gateway)]. *)
Definition setGatewayIP (gateway : IPAddress) : M Eth unit :=
  spibus_beginTransaction ;;
  let ip := gateway in
  w5100_setGatewayIp ip ;;
  spibus_endTransaction.

(** [void setRetransmissionTimeout(uint16_t milliseconds)]: the product is
    computed in [int] and converted to the driver's [uint16_t] parameter. *)
Definition setRetransmissionTimeout (milliseconds : Z) : M Eth unit :=
  let milliseconds := if milliseconds >? 6553 then 6553 else milliseconds in
  spibus_beginTransaction ;;
  w5100_setRetransmissionTime (to_uint16 (milliseconds * 10)) ;;
  spibus_endTransaction.

(** [void setRetransmissionCount(uint8_t num)]. *)
Definition setRetransmissionCount (num : Z) : M Eth unit :=
  spibus_beginTransaction ;;
  w5100_setRetransmissionCount num ;;
  spibus_endTransaction.

(** ** Sequences of calls on one object *)

(** The ten accessor and mutator member functions, with their arguments. *)
Inductive accessor : Type :=
| call_MACAddress
| call_localIP
| call_subnetMask
| call_gatewayIP
| call_setMACAddress (mac_address : MACAddress)
| call_setLocalIP (local_ip : IPAddress)
| call_setSubnetMask (subnet : IPAddress)
| call_setGatewayIP (gateway : IPAddress)
| call_setRetransmissionTimeout (milliseconds : Z)
| call_setRetransmissionCount (num : Z).

(** The public member functions of a live object, with their arguments. *)
Inductive call : Type :=
| call_begin_DHCP (mac : MACAddress) (timeout responseTimeout now : Z)
| call_begin_ip (mac : MACAddress) (ip : IPAddress)
| call_begin_ip_dns (mac : MACAddress) (ip dns : IPAddress)
| call_begin_ip_dns_gateway (mac : MACAddress) (ip dns gateway : IPAddress)
| call_begin_ip_dns_gateway_subnet (mac : MACAddress) (ip dns gateway subnet : IPAddress)
| call_linkStatus
| call_hardwareStatus
| call_maintain
| call_accessor (a : accessor).

Definition discard {A : Type} (m : M Eth A) : M Eth unit := m ;; ret tt.

Definition run_accessor (a : accessor) : M Eth unit :=
  match a with
  | call_MACAddress => discard MACAddress_get
  | call_localIP => discard localIP
  | call_subnetMask => discard subnetMask
  | call_gatewayIP => discard gatewayIP
  | call_setMACAddress m => setMACAddress m
  | call_setLocalIP a => setLocalIP a
  | call_setSubnetMask a => setSubnetMask a
  | call_setGatewayIP a => setGatewayIP a
  | call_setRetransmissionTimeout ms => setRetransmissionTimeout ms
  | call_setRetransmissionCount n => setRetransmissionCount n
  end.

Definition run_call (c : call) : M Eth unit :=
  match c with
  | call_begin_DHCP mac t rt now => discard (begin_DHCP mac t rt now)
  | call_begin_ip mac ip => begin_ip mac ip
  | call_begin_ip_dns mac ip dns => begin_ip_dns mac ip dns
  | call_begin_ip_dns_gateway mac ip dns gw => begin_ip_dns_gateway mac ip dns gw
  | call_begin_ip_dns_gateway_subnet mac ip dns gw sn =>
      begin_ip_dns_gateway_subnet mac ip dns gw sn
  | call_linkStatus => discard linkStatus
  | call_hardwareStatus => discard hardwareStatus
  | call_maintain => discard maintain
  | call_accessor a => run_accessor a
  end.

Fixpoint run_calls (cs : list call) : M Eth unit :=
  match cs with
  | [] => ret tt
  | c :: cs' => run_call c ;; run_calls cs'
  end.

Definition is_begin_DHCP (c : call) : bool :=
  match c with call_begin_DHCP _ _ _ _ => true | _ => false end.

(** ** Call sequences of the DHCP bring-up *)

(** The calls of the DHCP bring-up up to and including the negotiation. *)
Definition negotiation_prefix (mac : MACAddress) (timeout responseTimeout : Z)
    : list event :=
  [w5100 init_call;
   beginTransaction;
   w5100 (setMACAddress_call mac);
   w5100 (setIPAddress_call (mkIP 0 0 0 0));
   endTransaction;
   beginWithDHCP_call mac timeout responseTimeout].

(** The calls that publish the negotiated addresses of [d]. *)
Definition publication (d : DhcpClass) : list event :=
  [beginTransaction;
   w5100 (setIPAddress_call (getLocalIp d));
   w5100 (setGatewayIp_call (getGatewayIp d));
   w5100 (setSubnetMask_call (getSubnetMask d));
   endTransaction].

(** ** The bus discipline of the member functions *)




(** The public calls that only read: the four address getters and the two
    status mappers. *)
Definition is_read_only (c : call) : bool :=
  match c with
  | call_linkStatus | call_hardwareStatus => true
  | call_accessor (call_MACAddress | call_localIP | call_subnetMask | call_gatewayIP) => true
  | _ => false
  end.

(** The static bring-up overloads. *)
Definition is_begin_static (c : call) : bool :=
  match c with
  | call_begin_ip _ _ | call_begin_ip_dns _ _ _
  | call_begin_ip_dns_gateway _ _ _ _
  | call_begin_ip_dns_gateway_subnet _ _ _ _ _ => true
  | _ => false
  end.

(** The registers the mutators write, and the one each accessor or mutator
    call writes ([None] for the getters). *)
Inductive register : Type :=
  SHAR_reg | SIPR_reg | GAR_reg | SUBR_reg | RTR_reg | RCR_reg.

Definition written (a : accessor) : option register :=
  match a with
  | call_setMACAddress _ => Some SHAR_reg
  | call_setLocalIP _ => Some SIPR_reg
  | call_setGatewayIP _ => Some GAR_reg
  | call_setSubnetMask _ => Some SUBR_reg
  | call_setRetransmissionTimeout _ => Some RTR_reg
  | call_setRetransmissionCount _ => Some RCR_reg
  | _ => None
  end.

(** Events and calls counted against each other. *)
Definition is_init_event (e : event) : bool :=
  match e with w5100 init_call => true | _ => false end.

Definition is_checkLease_event (e : event) : bool :=
  match e with checkLease_call => true | _ => false end.

Definition is_beginWithDHCP_event (e : event) : bool :=
  match e with beginWithDHCP_call _ _ _ => true | _ => false end.

Definition is_bring_up (c : call) : bool := is_begin_DHCP c || is_begin_static c.

Definition is_maintain (c : call) : bool :=
  match c with call_maintain => true | _ => false end.

(** ** Properties *)

Ltac run :=
  unfold result, state, trace, discard, bind, ret, emit,
    spibus_beginTransaction, spibus_endTransaction, w5100_call,
    get_dhcp, set_dhcp, set_dnsServerAddress; cbn.

(** *** Hardware identity *)

(** C1 (as amended): [hardwareStatus] makes one [getChip] call and changes
    nothing; it returns W5100 (variant A) for the decimal code 51, W5200
    (variant B) for 52, W5500 (variant C) for 55 and no-hardware for every
    other code. *)
Theorem hardwareStatus_decimal_codes : forall s : Eth,
  let code := chip (_w5100 s) in
  state (hardwareStatus s) = s /\
  trace (hardwareStatus s) = [w5100 getChip_call] /\
  (code = 51 -> result (hardwareStatus s) = EthernetW5100) /\
  (code = 52 -> result (hardwareStatus s) = EthernetW5200) /\
  (code = 55 -> result (hardwareStatus s) = EthernetW5500) /\
  (code <> 51 -> code <> 52 -> code <> 55 ->
   result (hardwareStatus s) = EthernetNoHardware).
Proof.
  intros [dns d w]. cbn zeta. cbn [_w5100].
  unfold hardwareStatus, w5100_getChip. run.
  destruct (Z.eqb_spec (chip w) 51) as [E1|E1];
    destruct (Z.eqb_spec (chip w) 52) as [E2|E2];
    destruct (Z.eqb_spec (chip w) 55) as [E3|E3];
    cbn; repeat split; intros; first [reflexivity|congruence|lia].
Qed.

(** *** Chained defaults of the static bring-up *)

(** C2: [begin(mac, ip)] delegates through the shorter overloads to the full
    one with dns and gateway equal to [ip] with its fourth octet set to 1
    and subnet 255.255.255.0; when the chip answers, these are the gateway
    and subnet registers and the cached DNS address after the call. *)
Theorem begin_ip_chained_defaults : forall (mac : MACAddress) (ip : IPAddress) (s : Eth),
  let ip1 := mkIP (oct0 ip) (oct1 ip) (oct2 ip) 1 in
  begin_ip mac ip s = begin_ip_dns mac ip ip1 s /\
  begin_ip_dns mac ip ip1 s = begin_ip_dns_gateway mac ip ip1 ip1 s /\
  begin_ip_dns_gateway mac ip ip1 ip1 s
  = begin_ip_dns_gateway_subnet mac ip ip1 ip1 (mkIP 255 255 255 0) s /\
  (fst (W5100_init (_w5100 s)) <> 0 ->
   let s' := state (begin_ip mac ip s) in
   _dnsServerAddress s' = ip1 /\
   GAR (_w5100 s') = ip1 /\
   SUBR (_w5100 s') = mkIP 255 255 255 0 /\
   SIPR (_w5100 s') = ip /\
   SHAR (_w5100 s') = mac).
Proof.
  intros mac ip s ip1.
  repeat split; try reflexivity;
    unfold begin_ip, begin_ip_dns, begin_ip_dns_gateway,
      begin_ip_dns_gateway_subnet, w5100_init; run;
    apply Z.eqb_neq in H; rewrite H; reflexivity.
Qed.

(** *** Retransmission tuning *)

(** C3: for every [uint16_t] input [x], [setRetransmissionTimeout x] writes
    [min x 6553 * 10] to the retransmission-time register, a value of at
    most 65530 that fits 16 bits; [x = 0] stores 0 and [x = 7000] stores
    65530. *)
Theorem setRetransmissionTimeout_clamps : forall (x : Z) (s : Eth),
  0 <= x < 65536 ->
  let v := Z.min x 6553 * 10 in
  trace (setRetransmissionTimeout x s)
  = [beginTransaction; w5100 (setRetransmissionTime_call v); endTransaction] /\
  RTR (_w5100 (state (setRetransmissionTimeout x s))) = v /\
  0 <= v <= 65530 /\
  RTR (_w5100 (state (setRetransmissionTimeout 0 s))) = 0 /\
  RTR (_w5100 (state (setRetransmissionTimeout 7000 s))) = 65530.
Proof.
  intros x s Hx v.
  assert (Hv : 0 <= v <= 65530) by (unfold v; lia).
  assert (Hc : to_uint16 ((if x >? 6553 then 6553 else x) * 10) = v).
  { unfold to_uint16, v. destruct (Z.gtb_spec x 6553).
    - rewrite Z.min_r by lia. reflexivity.
    - rewrite Z.min_l by lia. apply Z.mod_small. lia. }
  unfold setRetransmissionTimeout, w5100_setRetransmissionTime. run.
  rewrite Hc. repeat split; try reflexivity; lia.
Qed.

(** *** Maintenance without a negotiator *)

Lemma maintain_null : forall s : Eth,
  _dhcp s = None ->
  maintain s = (DHCP_CHECK_NONE, s, []).
Proof.
  intros s H. unfold maintain. run. rewrite H. reflexivity.
Qed.

(** *** Chip initialization failure *)

(** C6: when [init] reports 0, the DHCP bring-up returns 0 and the fully
    explicit static bring-up returns with no effect: the only chip-driver
    call is [init], no bus acquisition is made, no register is written and
    the cached DNS address is unchanged. *)
Theorem begin_init_failure : forall (mac : MACAddress) (timeout responseTimeout now : Z)
    (ip dns gateway subnet : IPAddress) (s : Eth),
  fst (W5100_init (_w5100 s)) = 0 ->
  let w' := snd (W5100_init (_w5100 s)) in
  let r := begin_DHCP mac timeout responseTimeout now s in
  (result r = 0 /\
   trace r = match _dhcp s with
             | None => [new_DhcpClass; w5100 init_call]
             | Some _ => [w5100 init_call]
             end /\
   count is_acquire (trace r) = 0%nat /\
   count is_write_event (trace r) = 0%nat /\
   _dnsServerAddress (state r) = _dnsServerAddress s /\
   _w5100 (state r) = w') /\
  begin_ip_dns_gateway_subnet mac ip dns gateway subnet s
  = (tt, mkEthernet (_dnsServerAddress s) (_dhcp s) w', [w5100 init_call]).
Proof.
  intros mac timeout responseTimeout now ip dns gateway subnet [a d w] Hinit.
  cbn in Hinit |- *.
  unfold begin_DHCP, begin_ip_dns_gateway_subnet, dhcp_new, w5100_init. run.
  destruct d as [d|]; cbn; rewrite Hinit; cbn; repeat split; reflexivity.
Qed.

(** *** Bus discipline of the accessors and mutators *)

(** C7: each of the ten accessor and mutator calls makes exactly three
    calls, in this order: one bus acquisition, one chip-driver call, one bus
    release; so it acquires once, releases once and leaves no acquisition
    open. *)
Theorem accessor_single_bus_bracket : forall (a : accessor) (s : Eth),
  exists c : chip_call,
    trace (run_accessor a s) = [beginTransaction; w5100 c; endTransaction] /\
    c <> init_call /\
    count is_acquire (trace (run_accessor a s)) = 1%nat /\
    count is_release (trace (run_accessor a s)) = 1%nat /\
    open_after 0 (trace (run_accessor a s)) = 0%nat.
Proof.
  intros a s.
  destruct a; cbn [run_accessor];
    unfold MACAddress_get, localIP, subnetMask, gatewayIP, setMACAddress,
      setLocalIP, setSubnetMask, setGatewayIP, setRetransmissionTimeout,
      setRetransmissionCount, w5100_getMACAddress, w5100_getIPAddress,
      w5100_getSubnetMask, w5100_getGatewayIp, w5100_setMACAddress,
      w5100_setIPAddress, w5100_setSubnetMask, w5100_setGatewayIp,
      w5100_setRetransmissionTime, w5100_setRetransmissionCount; run;
    eexists; (split; [reflexivity|]); (split; [discriminate|]);
    repeat split.
Qed.

(** *** Maintenance with a negotiator *)

(** C4: with a negotiator in state [d], [maintain] calls [checkLease] once
    and returns its code.  On renew-ok or rebind-ok it then writes the
    negotiator's local, gateway and subnet addresses to the chip inside one
    bus acquisition and caches the negotiator's DNS address; on any other
    code (no-lease, or an error code) it makes no further call and keeps the
    cached DNS address.  The check codes are distinct case labels. *)
Theorem maintain_with_negotiator : forall (s : Eth) (d : DhcpClass),
  _dhcp s = Some d ->
  DHCP_CHECK_NONE <> DHCP_CHECK_RENEW_OK ->
  DHCP_CHECK_NONE <> DHCP_CHECK_REBIND_OK ->
  let rc := fst (fst (checkLease d (_w5100 s))) in
  let d' := snd (fst (checkLease d (_w5100 s))) in
  let w' := snd (checkLease d (_w5100 s)) in
  result (maintain s) = rc /\
  (rc = DHCP_CHECK_RENEW_OK \/ rc = DHCP_CHECK_REBIND_OK ->
   trace (maintain s)
   = [checkLease_call;
      beginTransaction;
      w5100 (setIPAddress_call (getLocalIp d'));
      w5100 (setGatewayIp_call (getGatewayIp d'));
      w5100 (setSubnetMask_call (getSubnetMask d'));
      endTransaction] /\
   state (maintain s)
   = mkEthernet (getDnsServerIp d') (Some d')
       (with_SUBR (with_GAR (with_SIPR w' (getLocalIp d')) (getGatewayIp d'))
          (getSubnetMask d'))) /\
  (rc = DHCP_CHECK_NONE \/
   (rc <> DHCP_CHECK_RENEW_OK /\ rc <> DHCP_CHECK_REBIND_OK) ->
   trace (maintain s) = [checkLease_call] /\
   count is_write_event (trace (maintain s)) = 0%nat /\
   count is_acquire (trace (maintain s)) = 0%nat /\
   state (maintain s) = mkEthernet (_dnsServerAddress s) (Some d') w').
Proof.
  intros [a p w] d Hd Hrenew Hrebind. cbn in Hd. subst p. cbn [_w5100].
  unfold maintain, dhcp_checkLease, w5100_setIPAddress, w5100_setGatewayIp,
    w5100_setSubnetMask. run.
  destruct (checkLease d w) as [[rc d'] w']. cbn.
  destruct (Z.eqb_spec rc DHCP_CHECK_NONE) as [En|En];
    destruct (Z.eqb_spec rc DHCP_CHECK_RENEW_OK) as [Er|Er];
    destruct (Z.eqb_spec rc DHCP_CHECK_REBIND_OK) as [Eb|Eb];
    cbn; (split; [reflexivity|]); split; intros Hc;
    try (repeat split; reflexivity);
    exfalso; destruct Hc as [Hc|Hc]; try destruct Hc; congruence.
Qed.

(** *** Traces of composed calls *)

Lemma count_app : forall (p : event -> bool) (t1 t2 : list event),
  count p (t1 ++ t2) = (count p t1 + count p t2)%nat.
Proof.
  intros p t1 t2. unfold count. rewrite filter_app. apply length_app.
Qed.

Lemma trace_bind : forall (A B : Type) (m : M Eth A) (k : A -> M Eth B) (s : Eth),
  trace (bind m k s) = trace (m s) ++ trace (k (result (m s)) (state (m s))).
Proof.
  intros A B m k s. unfold bind, trace, result, state.
  destruct (m s) as [[a s1] t1]. cbn.
  destruct (k a s1) as [[b s2] t2]. reflexivity.
Qed.

Lemma state_bind : forall (A B : Type) (m : M Eth A) (k : A -> M Eth B) (s : Eth),
  state (bind m k s) = state (k (result (m s)) (state (m s))).
Proof.
  intros A B m k s. unfold bind, trace, result, state.
  destruct (m s) as [[a s1] t1]. cbn.
  destruct (k a s1) as [[b s2] t2]. reflexivity.
Qed.

Lemma cons_split : forall (x e : event) (l pre post : list event),
  x :: l = pre ++ e :: post ->
  (pre = [] /\ e = x /\ post = l) \/
  (exists pre', pre = x :: pre' /\ l = pre' ++ e :: post).
Proof.
  intros x e l [|y pre] post H; cbn in H; injection H as -> ->.
  - left. repeat split.
  - right. exists pre. split; reflexivity.
Qed.

Ltac members :=
  unfold run_accessor, begin_DHCP, begin_ip, begin_ip_dns, begin_ip_dns_gateway,
    begin_ip_dns_gateway_subnet, linkStatus, hardwareStatus, maintain,
    MACAddress_get, localIP, subnetMask, gatewayIP, setMACAddress,
    setLocalIP, setSubnetMask, setGatewayIP, setRetransmissionTimeout,
    setRetransmissionCount, dhcp_new, dhcp_beginWithDHCP, dhcp_checkLease,
    w5100_init, w5100_getLinkStatus, w5100_getChip,
    w5100_getMACAddress, w5100_getIPAddress,
    w5100_getSubnetMask, w5100_getGatewayIp, w5100_setMACAddress,
    w5100_setIPAddress, w5100_setSubnetMask, w5100_setGatewayIp,
    w5100_setRetransmissionTime, w5100_setRetransmissionCount.

(** Case analysis on an innermost scrutinee of the goal. *)
Ltac break :=
  repeat match goal with
         | |- context [match ?x with _ => _ end] =>
             lazymatch x with
             | context [match _ with _ => _ end] => fail
             | _ => destruct x eqn:?; cbn
             end
         end.

(** What one public call does to the negotiator pointer: only the DHCP
    bring-up creates a negotiator, only when there is none, and no call
    deletes it or resets the pointer. *)
Lemma run_call_negotiator : forall (c : call) (s : Eth),
  count is_delete (trace (run_call c s)) = 0%nat /\
  count is_new (trace (run_call c s))
  = (if is_begin_DHCP c
     then match _dhcp s with None => 1%nat | Some _ => 0%nat end
     else 0%nat) /\
  (_dhcp (state (run_call c s)) = None <->
   _dhcp s = None /\ is_begin_DHCP c = false).
Proof.
  intros c [a p w].
  destruct c as [mac t rt now| | | | | | | |acc]; [| | | | | | | |destruct acc];
    cbn [run_call is_begin_DHCP]; members; run; break;
    repeat split; try reflexivity; try discriminate; try tauto;
    try (intros [? ?]; discriminate).
Qed.

Lemma run_calls_negotiator : forall (cs : list call) (s : Eth),
  count is_delete (trace (run_calls cs s)) = 0%nat /\
  count is_new (trace (run_calls cs s))
  = (if existsb is_begin_DHCP cs
     then match _dhcp s with None => 1%nat | Some _ => 0%nat end
     else 0%nat) /\
  (_dhcp (state (run_calls cs s)) = None <->
   _dhcp s = None /\ existsb is_begin_DHCP cs = false).
Proof.
  induction cs as [|c cs IH]; intros s.
  - cbn. repeat split; tauto.
  - cbn [run_calls existsb]. rewrite trace_bind, state_bind, !count_app.
    destruct (run_call_negotiator c s) as (Hd & Hn & Hp).
    destruct (IH (state (run_call c s))) as (IHd & IHn & IHp).
    rewrite Hd, Hn, IHd, IHn. clear IH IHd IHn Hd Hn.
    destruct (is_begin_DHCP c), (existsb is_begin_DHCP cs),
      (_dhcp s), (_dhcp (state (run_call c s)));
      cbn; repeat split; intros; try reflexivity;
      intuition (discriminate || congruence).
Qed.

(** *** The DHCP bring-up, path by path *)

Lemma begin_DHCP_paths : forall (mac : MACAddress) (timeout responseTimeout now : Z) (s : Eth),
  let d := match _dhcp s with Some d => d | None => DhcpClass_ctor end in
  let created := match _dhcp s with Some _ => [] | None => [new_DhcpClass] end in
  let i := fst (W5100_init (_w5100 s)) in
  let w1 := snd (W5100_init (_w5100 s)) in
  let w2 := with_SIPR (with_SHAR w1 mac) (mkIP 0 0 0 0) in
  let r := fst (fst (beginWithDHCP d mac timeout responseTimeout w2)) in
  let d' := snd (fst (beginWithDHCP d mac timeout responseTimeout w2)) in
  let w3 := snd (beginWithDHCP d mac timeout responseTimeout w2) in
  begin_DHCP mac timeout responseTimeout now s
  = if i =? 0 then
      (0, mkEthernet (_dnsServerAddress s) (Some d) w1,
       created ++ [w5100 init_call])
    else if r =? 1 then
      (r,
       mkEthernet (getDnsServerIp d') (Some d')
         (with_SUBR (with_GAR (with_SIPR w3 (getLocalIp d')) (getGatewayIp d'))
            (getSubnetMask d')),
       created ++ negotiation_prefix mac timeout responseTimeout
         ++ publication d' ++ [socketPortRand now])
    else
      (r, mkEthernet (_dnsServerAddress s) (Some d') w3,
       created ++ negotiation_prefix mac timeout responseTimeout).
Proof.
  intros mac timeout responseTimeout now [a p w]. cbn zeta. cbn [_dhcp _w5100 _dnsServerAddress].
  members. run.
  destruct p as [d|]; cbn;
    destruct (fst (W5100_init w) =? 0); cbn; try reflexivity;
    match goal with
    | |- context [beginWithDHCP ?d ?m ?t ?rt ?w2] =>
        destruct (beginWithDHCP d m t rt w2) as [[r d'] w3]; cbn
    end;
    destruct (r =? 1); reflexivity.
Qed.

Ltac split_trace H :=
  lazymatch type of H with
  | [] = _ ++ _ :: _ => exfalso; exact (app_cons_not_nil _ _ _ H)
  | _ :: _ = _ ++ _ :: _ =>
      let H' := fresh "H" in
      let pre' := fresh "pre" in
      destruct (cons_split _ _ _ _ _ H) as [(-> & -> & ->)|(pre' & -> & H')];
      [|split_trace H']
  end.

(** C8: in the trace of the DHCP bring-up, the only call into the
    negotiator is [beginWithDHCP]; it is made whenever the chip answers
    [init]; no bus acquisition is open when it is made: the one acquisition
    before it brackets the MAC and zero-IP writes and is released; and what
    follows it is either nothing or one new acquisition publishing the
    negotiated addresses. *)
Theorem begin_DHCP_bus_free_during_negotiation :
  forall (mac : MACAddress) (timeout responseTimeout now : Z) (s : Eth),
  let tr := trace (begin_DHCP mac timeout responseTimeout now s) in
  (fst (W5100_init (_w5100 s)) <> 0 ->
   In (beginWithDHCP_call mac timeout responseTimeout) tr) /\
  (forall (pre post : list event) (e : event),
     tr = pre ++ e :: post ->
     is_negotiator_call e = true ->
     e = beginWithDHCP_call mac timeout responseTimeout /\
     open_after 0 pre = 0%nat /\
     (exists pre0,
        pre = pre0 ++ [beginTransaction;
                       w5100 (setMACAddress_call mac);
                       w5100 (setIPAddress_call (mkIP 0 0 0 0));
                       endTransaction] /\
        count is_acquire pre0 = 0%nat) /\
     (post = [] \/
      exists d' : DhcpClass, post = publication d' ++ [socketPortRand now])).
Proof.
  intros mac timeout responseTimeout now s tr. subst tr.
  rewrite begin_DHCP_paths. cbn zeta.
  destruct (_dhcp s) as [d|];
    (destruct (Z.eqb_spec (fst (W5100_init (_w5100 s))) 0) as [Ei|Ei];
     [|match goal with
       | |- context [if ?c then _ else _] => destruct c
       end]);
    unfold trace, negotiation_prefix, publication; cbn;
    (split; [intros Hi; try contradiction; repeat first [left; reflexivity|right]|]);
    intros pre post e H He; split_trace H; try discriminate He;
    (split; [reflexivity|]); (split; [reflexivity|]);
    (split;
     [first [exists [w5100 init_call]; split; reflexivity
            |exists [new_DhcpClass; w5100 init_call]; split; reflexivity]|]);
    first [left; reflexivity|right; eexists; reflexivity].
Qed.

(** C5: on an object driven from construction by any sequence of public
    calls that contains no DHCP bring-up, no negotiator exists and
    [maintain] returns [DHCP_CHECK_NONE], makes no call at all (no
    chip-driver call, no bus acquisition) and leaves the object unchanged. *)
Theorem maintain_before_DHCP_bring_up : forall (w : W5100Class) (cs : list call),
  existsb is_begin_DHCP cs = false ->
  let s := state (run_calls cs (EthernetClass_ctor w)) in
  _dhcp s = None /\
  maintain s = (DHCP_CHECK_NONE, s, []) /\
  count is_acquire (trace (maintain s)) = 0%nat /\
  (forall c : chip_call, ~ In (w5100 c) (trace (maintain s))).
Proof.
  intros w cs Hcs s.
  assert (Hs : _dhcp s = None).
  { apply (run_calls_negotiator cs (EthernetClass_ctor w)).
    split; [reflexivity|exact Hcs]. }
  split; [exact Hs|].
  rewrite (maintain_null s Hs). cbn.
  repeat split. intros c Hc. exact Hc.
Qed.

(** C9: on an object driven from construction by any sequence of public
    calls, the negotiator is never deleted and is created exactly when the
    sequence contains a DHCP bring-up, once (so by the first one, every
    prefix obeying the same count); the pointer is null exactly when none
    was created; a DHCP bring-up that finds a negotiator [d] neither creates
    nor deletes one and negotiates with [d] itself; and the destructor
    deletes the negotiator exactly when one was created. *)
Theorem negotiator_created_once : forall (w : W5100Class) (cs : list call),
  let r := run_calls cs (EthernetClass_ctor w) in
  count is_delete (trace r) = 0%nat /\
  count is_new (trace r) = (if existsb is_begin_DHCP cs then 1%nat else 0%nat) /\
  (_dhcp (state r) = None <-> existsb is_begin_DHCP cs = false) /\
  trace (EthernetClass_dtor (state r))
  = (if existsb is_begin_DHCP cs then [delete_DhcpClass] else []) /\
  (forall (mac : MACAddress) (timeout responseTimeout now : Z) (d : DhcpClass),
     _dhcp (state r) = Some d ->
     let r' := begin_DHCP mac timeout responseTimeout now (state r) in
     count is_new (trace r') = 0%nat /\
     count is_delete (trace r') = 0%nat /\
     (fst (W5100_init (_w5100 (state r))) = 0 -> _dhcp (state r') = Some d) /\
     (fst (W5100_init (_w5100 (state r))) <> 0 ->
      _dhcp (state r')
      = Some (snd (fst (beginWithDHCP d mac timeout responseTimeout
                          (with_SIPR
                             (with_SHAR (snd (W5100_init (_w5100 (state r)))) mac)
                             (mkIP 0 0 0 0))))))).
Proof.
  intros w cs r.
  destruct (run_calls_negotiator cs (EthernetClass_ctor w)) as (Hd & Hn & Hp).
  fold r in Hd, Hn, Hp. cbn [EthernetClass_ctor _dhcp] in Hn, Hp.
  assert (Hp' : _dhcp (state r) = None <-> existsb is_begin_DHCP cs = false).
  { split; intros H.
    - apply Hp in H. apply H.
    - apply Hp. split; [reflexivity|exact H]. }
  clear Hp.
  split; [exact Hd|]. split; [exact Hn|].
  split; [exact Hp'|]. split.
  - destruct (state r) as [a [d|] w']; cbn [_dhcp] in Hp';
      destruct (existsb is_begin_DHCP cs); try reflexivity.
    + assert (Hc : Some d = None) by (apply Hp'; reflexivity). discriminate Hc.
    + assert (Hc : true = false) by (apply Hp'; reflexivity). discriminate Hc.
  - intros mac timeout responseTimeout now d E r'.
    destruct (run_call_negotiator (call_begin_DHCP mac timeout responseTimeout now) (state r))
      as (Hd' & Hn' & _).
    cbn [run_call is_begin_DHCP] in Hd', Hn'. unfold discard in Hd', Hn'.
    rewrite trace_bind in Hd', Hn'. cbn [ret trace snd] in Hd', Hn'.
    rewrite app_nil_r in Hd', Hn'. rewrite E in Hn'.
    split; [exact Hn'|]. split; [exact Hd'|].
    subst r'. rewrite begin_DHCP_paths. cbn zeta. rewrite E.
    split; intros Hi.
    + rewrite Hi. reflexivity.
    + apply Z.eqb_neq in Hi. rewrite Hi.
      match goal with |- context [if ?c then _ else _] => destruct c end;
        reflexivity.
Qed.

(** C10: after any DHCP bring-up, whatever it returned, and after any
    further public calls, the negotiator pointer is non-null and [maintain]
    starts by calling [checkLease] and returns its code. *)
Theorem maintain_consults_negotiator_after_begin_DHCP :
  forall (mac : MACAddress) (timeout responseTimeout now : Z) (s : Eth) (cs : list call),
  let s1 := state (begin_DHCP mac timeout responseTimeout now s) in
  let s2 := state (run_calls cs s1) in
  exists d : DhcpClass,
    _dhcp s2 = Some d /\
    result (maintain s2) = fst (fst (checkLease d (_w5100 s2))) /\
    exists rest : list event, trace (maintain s2) = checkLease_call :: rest.
Proof.
  intros mac timeout responseTimeout now s cs s1 s2.
  assert (H1 : _dhcp s1 <> None).
  { subst s1. rewrite begin_DHCP_paths. cbn zeta.
    repeat match goal with
           | |- context [if ?c then _ else _] => destruct c
           end; discriminate. }
  assert (H2 : _dhcp s2 <> None).
  { intros Hc. apply (run_calls_negotiator cs s1) in Hc. tauto. }
  destruct s2 as [a [d|] w2]; [|contradiction].
  exists d. split; [reflexivity|].
  unfold maintain, dhcp_checkLease. run.
  destruct (checkLease d w2) as [[rc d'] w']. cbn.
  split; [break; reflexivity|].
  break; eexists; reflexivity.
Qed.

(** ** Further properties of the member functions *)

(** *** Link state *)


(** *** Bus discipline of every call sequence *)








(** *** Static bring-up on a responding chip *)

Lemma begin_static_paths : forall (mac : MACAddress) (ip dns gateway subnet : IPAddress) (s : Eth),
  let w1 := snd (W5100_init (_w5100 s)) in
  begin_ip_dns_gateway_subnet mac ip dns gateway subnet s
  = if fst (W5100_init (_w5100 s)) =? 0 then
      (tt, mkEthernet (_dnsServerAddress s) (_dhcp s) w1, [w5100 init_call])
    else
      (tt,
       mkEthernet dns (_dhcp s)
         (with_SUBR (with_GAR (with_SIPR (with_SHAR w1 mac) ip) gateway) subnet),
       [w5100 init_call; beginTransaction;
        w5100 (setMACAddress_call mac); w5100 (setIPAddress_call ip);
        w5100 (setGatewayIp_call gateway); w5100 (setSubnetMask_call subnet);
        endTransaction]).
Proof.
  intros mac ip dns gateway subnet [a p w]. cbn zeta.
  cbn [_dhcp _w5100 _dnsServerAddress]. members. run.
  destruct (fst (W5100_init w) =? 0); reflexivity.
Qed.

(** X3: when the chip answers [init], the fully explicit static bring-up
    makes, after [init], one bus acquisition holding the four writes MAC,
    IP, gateway, subnet in this order; it makes no call into the negotiator,
    keeps the negotiator pointer, caches [dns] and leaves the four registers
    holding its arguments. *)
Theorem begin_static_publishes_arguments :
  forall (mac : MACAddress) (ip dns gateway subnet : IPAddress) (s : Eth),
  fst (W5100_init (_w5100 s)) <> 0 ->
  let r := begin_ip_dns_gateway_subnet mac ip dns gateway subnet s in
  trace r
  = [w5100 init_call; beginTransaction;
     w5100 (setMACAddress_call mac); w5100 (setIPAddress_call ip);
     w5100 (setGatewayIp_call gateway); w5100 (setSubnetMask_call subnet);
     endTransaction] /\
  count is_negotiator_call (trace r) = 0%nat /\
  _dhcp (state r) = _dhcp s /\
  _dnsServerAddress (state r) = dns /\
  SHAR (_w5100 (state r)) = mac /\
  SIPR (_w5100 (state r)) = ip /\
  GAR (_w5100 (state r)) = gateway /\
  SUBR (_w5100 (state r)) = subnet.
Proof.
  intros mac ip dns gateway subnet s Hinit r. subst r.
  rewrite begin_static_paths. cbn zeta.
  apply Z.eqb_neq in Hinit. rewrite Hinit.
  repeat split.
Qed.

(** X4: [begin(mac, ip, dns)] is the full bring-up with the supplied [dns],
    the gateway derived from [ip] (fourth octet 1), not from [dns], and
    subnet 255.255.255.0; [begin(mac, ip, dns, gateway)] is the full
    bring-up with the supplied [dns] and [gateway] and subnet
    255.255.255.0.  On a responding chip the cached DNS address is the
    supplied one in both. *)
Theorem begin_partial_overloads_defaults :
  forall (mac : MACAddress) (ip dns gateway : IPAddress) (s : Eth),
  let ip1 := mkIP (oct0 ip) (oct1 ip) (oct2 ip) 1 in
  begin_ip_dns mac ip dns s
  = begin_ip_dns_gateway_subnet mac ip dns ip1 (mkIP 255 255 255 0) s /\
  begin_ip_dns_gateway mac ip dns gateway s
  = begin_ip_dns_gateway_subnet mac ip dns gateway (mkIP 255 255 255 0) s /\
  (fst (W5100_init (_w5100 s)) <> 0 ->
   _dnsServerAddress (state (begin_ip_dns mac ip dns s)) = dns /\
   GAR (_w5100 (state (begin_ip_dns mac ip dns s))) = ip1 /\
   SUBR (_w5100 (state (begin_ip_dns mac ip dns s))) = mkIP 255 255 255 0 /\
   _dnsServerAddress (state (begin_ip_dns_gateway mac ip dns gateway s)) = dns /\
   GAR (_w5100 (state (begin_ip_dns_gateway mac ip dns gateway s))) = gateway /\
   SUBR (_w5100 (state (begin_ip_dns_gateway mac ip dns gateway s)))
   = mkIP 255 255 255 0).
Proof.
  intros mac ip dns gateway s ip1.
  split; [reflexivity|]. split; [reflexivity|].
  intros Hinit. apply Z.eqb_neq in Hinit.
  unfold begin_ip_dns, begin_ip_dns_gateway. cbn zeta.
  rewrite !begin_static_paths. cbn zeta. rewrite Hinit.
  repeat split.
Qed.

(** *** Outcome of the DHCP bring-up *)

(** X5: when the chip answers [init], the DHCP bring-up hands the
    negotiator a chip holding the given MAC and the IP address 0.0.0.0 and
    returns the negotiator's code.  When that code is 1 it publishes the
    negotiated addresses in a second acquisition, caches the negotiated DNS
    address and last seeds the port source with the clock reading; for any
    other code it makes no call after the negotiation, keeps the cached DNS
    address and leaves the chip as the negotiator left it. *)
Theorem begin_DHCP_outcome :
  forall (mac : MACAddress) (timeout responseTimeout now : Z) (s : Eth),
  fst (W5100_init (_w5100 s)) <> 0 ->
  let d := match _dhcp s with Some d => d | None => DhcpClass_ctor end in
  let w2 := with_SIPR (with_SHAR (snd (W5100_init (_w5100 s))) mac) (mkIP 0 0 0 0) in
  let r := fst (fst (beginWithDHCP d mac timeout responseTimeout w2)) in
  let d' := snd (fst (beginWithDHCP d mac timeout responseTimeout w2)) in
  let w3 := snd (beginWithDHCP d mac timeout responseTimeout w2) in
  let out := begin_DHCP mac timeout responseTimeout now s in
  SHAR w2 = mac /\ SIPR w2 = mkIP 0 0 0 0 /\
  result out = r /\
  _dhcp (state out) = Some d' /\
  (r = 1 ->
   count is_acquire (trace out) = 2%nat /\
   (exists pre, trace out = pre ++ publication d' ++ [socketPortRand now]) /\
   _dnsServerAddress (state out) = getDnsServerIp d' /\
   _w5100 (state out)
   = with_SUBR (with_GAR (with_SIPR w3 (getLocalIp d')) (getGatewayIp d'))
       (getSubnetMask d')) /\
  (r <> 1 ->
   count is_acquire (trace out) = 1%nat /\
   (exists pre, trace out = pre ++ [beginWithDHCP_call mac timeout responseTimeout]) /\
   _dnsServerAddress (state out) = _dnsServerAddress s /\
   _w5100 (state out) = w3).
Proof.
  intros mac timeout responseTimeout now s Hinit. cbn zeta.
  rewrite begin_DHCP_paths. cbn zeta.
  apply Z.eqb_neq in Hinit. rewrite Hinit.
  match goal with
  | |- context [beginWithDHCP ?d ?m ?t ?rt ?w2] =>
      destruct (beginWithDHCP d m t rt w2) as [[r d'] w3]
  end.
  cbn [fst snd].
  split; [reflexivity|]. split; [reflexivity|].
  destruct (Z.eqb_spec r 1) as [E|E].
  - split; [reflexivity|]. split; [reflexivity|]. split; [|intros C; contradiction].
    intros _. unfold trace, state. cbn [fst snd].
    split; [destruct (_dhcp s); reflexivity|].
    split; [|split; reflexivity].
    eexists. rewrite app_assoc. reflexivity.
  - split; [reflexivity|]. split; [reflexivity|]. split; [intros C; contradiction|].
    intros _. unfold trace, state. cbn [fst snd].
    split; [destruct (_dhcp s); reflexivity|].
    split; [|split; reflexivity].
    exists (match _dhcp s with Some _ => [] | None => [new_DhcpClass] end
            ++ [w5100 init_call; beginTransaction; w5100 (setMACAddress_call mac);
                w5100 (setIPAddress_call (mkIP 0 0 0 0)); endTransaction]).
    rewrite <- app_assoc. reflexivity.
Qed.

(** *** Maintenance, path by path *)

Lemma maintain_paths : forall (s : Eth) (d : DhcpClass),
  _dhcp s = Some d ->
  let rc := fst (fst (checkLease d (_w5100 s))) in
  let d' := snd (fst (checkLease d (_w5100 s))) in
  let w' := snd (checkLease d (_w5100 s)) in
  maintain s
  = if rc =? DHCP_CHECK_NONE then
      (rc, mkEthernet (_dnsServerAddress s) (Some d') w', [checkLease_call])
    else if (rc =? DHCP_CHECK_RENEW_OK) || (rc =? DHCP_CHECK_REBIND_OK) then
      (rc,
       mkEthernet (getDnsServerIp d') (Some d')
         (with_SUBR (with_GAR (with_SIPR w' (getLocalIp d')) (getGatewayIp d'))
            (getSubnetMask d')),
       checkLease_call :: publication d')
    else
      (rc, mkEthernet (_dnsServerAddress s) (Some d') w', [checkLease_call]).
Proof.
  intros [a p w] d Hd. cbn in Hd. subst p. cbn zeta. cbn [_w5100 _dnsServerAddress].
  unfold maintain, dhcp_checkLease, w5100_setIPAddress, w5100_setGatewayIp,
    w5100_setSubnetMask. run.
  destruct (checkLease d w) as [[rc d'] w']. cbn.
  destruct (rc =? DHCP_CHECK_NONE); [reflexivity|].
  destruct ((rc =? DHCP_CHECK_RENEW_OK) || (rc =? DHCP_CHECK_REBIND_OK));
    reflexivity.
Qed.

(** *** Reading back what was published *)

Lemma getters_read_registers : forall s : Eth,
  MACAddress_get s
  = (SHAR (_w5100 s), s, [beginTransaction; w5100 getMACAddress_call; endTransaction]) /\
  localIP s
  = (SIPR (_w5100 s), s, [beginTransaction; w5100 getIPAddress_call; endTransaction]) /\
  subnetMask s
  = (SUBR (_w5100 s), s, [beginTransaction; w5100 getSubnetMask_call; endTransaction]) /\
  gatewayIP s
  = (GAR (_w5100 s), s, [beginTransaction; w5100 getGatewayIp_call; endTransaction]).
Proof.
  intros [a p w]. repeat split.
Qed.

(** X6: after a DHCP bring-up on a responding chip that the negotiator
    answers with code 1, [localIP], [gatewayIP] and [subnetMask] return the
    negotiator's local, gateway and subnet addresses, and the cached DNS
    address is the negotiator's. *)
Theorem begin_DHCP_addresses_read_back :
  forall (mac : MACAddress) (timeout responseTimeout now : Z) (s : Eth),
  fst (W5100_init (_w5100 s)) <> 0 ->
  let d := match _dhcp s with Some d => d | None => DhcpClass_ctor end in
  let w2 := with_SIPR (with_SHAR (snd (W5100_init (_w5100 s))) mac) (mkIP 0 0 0 0) in
  let d' := snd (fst (beginWithDHCP d mac timeout responseTimeout w2)) in
  fst (fst (beginWithDHCP d mac timeout responseTimeout w2)) = 1 ->
  let s' := state (begin_DHCP mac timeout responseTimeout now s) in
  result (localIP s') = getLocalIp d' /\
  result (gatewayIP s') = getGatewayIp d' /\
  result (subnetMask s') = getSubnetMask d' /\
  _dnsServerAddress s' = getDnsServerIp d'.
Proof.
  intros mac timeout responseTimeout now s Hinit d w2 d' Hr s'.
  destruct (getters_read_registers s') as (_ & -> & -> & ->).
  subst s'. rewrite begin_DHCP_paths. cbn zeta.
  apply Z.eqb_neq in Hinit. rewrite Hinit.
  fold d. fold w2. rewrite Hr. repeat split.
Qed.

(** X7: when [maintain] finds a negotiator whose lease check reports
    renew-ok or rebind-ok, [localIP], [gatewayIP] and [subnetMask] return the
    negotiator's new addresses after the call, whatever they returned
    before, and the cached DNS address is the negotiator's.  The check codes
    are distinct case labels. *)
Theorem maintain_addresses_read_back : forall (s : Eth) (d : DhcpClass),
  _dhcp s = Some d ->
  DHCP_CHECK_NONE <> DHCP_CHECK_RENEW_OK ->
  DHCP_CHECK_NONE <> DHCP_CHECK_REBIND_OK ->
  let rc := fst (fst (checkLease d (_w5100 s))) in
  let d' := snd (fst (checkLease d (_w5100 s))) in
  rc = DHCP_CHECK_RENEW_OK \/ rc = DHCP_CHECK_REBIND_OK ->
  let s' := state (maintain s) in
  result (localIP s') = getLocalIp d' /\
  result (gatewayIP s') = getGatewayIp d' /\
  result (subnetMask s') = getSubnetMask d' /\
  _dnsServerAddress s' = getDnsServerIp d'.
Proof.
  intros s d Hd Hrenew Hrebind rc d' Hrc s'.
  destruct (getters_read_registers s') as (_ & -> & -> & ->).
  subst s'. rewrite (maintain_paths s d Hd). cbn zeta. fold rc. fold d'.
  destruct (Z.eqb_spec rc DHCP_CHECK_NONE) as [En|En].
  - exfalso. destruct Hrc; congruence.
  - assert (Hor : (rc =? DHCP_CHECK_RENEW_OK) || (rc =? DHCP_CHECK_REBIND_OK) = true).
    { apply orb_true_iff. destruct Hrc as [Hrc|Hrc]; [left|right];
        apply Z.eqb_eq; exact Hrc. }
    rewrite Hor. repeat split.
Qed.

(** *** Mutators and getters together *)

(** X8: each address mutator followed by its getter returns the value set:
    [setLocalIP]/[localIP], [setSubnetMask]/[subnetMask],
    [setGatewayIP]/[gatewayIP] and [setMACAddress]/[MACAddress]; setting the
    same register twice leaves the second value. *)
Theorem mutator_getter_round_trip :
  forall (a b : IPAddress) (m : MACAddress) (s : Eth),
  result (localIP (state (setLocalIP a s))) = a /\
  result (subnetMask (state (setSubnetMask a s))) = a /\
  result (gatewayIP (state (setGatewayIP a s))) = a /\
  result (MACAddress_get (state (setMACAddress m s))) = m /\
  result (localIP (state (setLocalIP b (state (setLocalIP a s))))) = b /\
  result (subnetMask (state (setSubnetMask b (state (setSubnetMask a s))))) = b /\
  result (gatewayIP (state (setGatewayIP b (state (setGatewayIP a s))))) = b.
Proof.
  intros a b m s.
  repeat match goal with
         | |- context [result (?g ?x)] =>
             first [is_var x; fail 1
                   |destruct (getters_read_registers x) as (-> & -> & -> & ->)]
         end.
  destruct s as [dns p w]. repeat split.
Qed.

(** X9: an accessor or mutator call changes nothing but the register it
    writes: the cached DNS address, the negotiator pointer, the chip identity
    and the link state are kept, and so is every register other than the
    written one; a getter keeps the whole object. *)
Theorem accessor_changes_only_its_register : forall (a : accessor) (s : Eth),
  let s' := state (run_accessor a s) in
  _dnsServerAddress s' = _dnsServerAddress s /\
  _dhcp s' = _dhcp s /\
  chip (_w5100 s') = chip (_w5100 s) /\
  link (_w5100 s') = link (_w5100 s) /\
  (written a <> Some SHAR_reg -> SHAR (_w5100 s') = SHAR (_w5100 s)) /\
  (written a <> Some SIPR_reg -> SIPR (_w5100 s') = SIPR (_w5100 s)) /\
  (written a <> Some GAR_reg -> GAR (_w5100 s') = GAR (_w5100 s)) /\
  (written a <> Some SUBR_reg -> SUBR (_w5100 s') = SUBR (_w5100 s)) /\
  (written a <> Some RTR_reg -> RTR (_w5100 s') = RTR (_w5100 s)) /\
  (written a <> Some RCR_reg -> RCR (_w5100 s') = RCR (_w5100 s)) /\
  (written a = None -> s' = s).
Proof.
  intros a [dns p [c l m i g n t r]].
  destruct a; cbn [run_accessor written]; members; run;
    repeat split; intros H; first [reflexivity|congruence].
Qed.

Lemma run_call_read_only : forall (c : call) (s : Eth),
  is_read_only c = true ->
  state (run_call c s) = s /\
  count is_write_event (trace (run_call c s)) = 0%nat /\
  count is_negotiator_call (trace (run_call c s)) = 0%nat.
Proof.
  intros c [a p w] H.
  destruct c as [mac t rt now| | | | | | | |acc]; [| | | | | | | |destruct acc];
    try discriminate H; cbn [run_call]; members; run; break; repeat split.
Qed.

(** X10: a sequence of calls made only of the four address getters,
    [linkStatus] and [hardwareStatus] leaves the object as it was, writes no
    register and makes no call into the negotiator. *)
Theorem read_only_calls_keep_object : forall (cs : list call) (s : Eth),
  forallb is_read_only cs = true ->
  state (run_calls cs s) = s /\
  count is_write_event (trace (run_calls cs s)) = 0%nat /\
  count is_negotiator_call (trace (run_calls cs s)) = 0%nat.
Proof.
  induction cs as [|c cs IH]; intros s H.
  - repeat split.
  - cbn [forallb] in H. apply andb_true_iff in H. destruct H as [Hc Hcs].
    cbn [run_calls]. rewrite trace_bind, state_bind, !count_app.
    destruct (run_call_read_only c s Hc) as (Es & Ew & En).
    rewrite Es, Ew, En. exact (IH s Hcs).
Qed.

(** *** Retransmission tuning, continued *)

Lemma setRetransmissionTimeout_RTR : forall (x : Z) (s : Eth),
  0 <= x < 65536 ->
  RTR (_w5100 (state (setRetransmissionTimeout x s))) = Z.min x 6553 * 10.
Proof.
  intros x s Hx.
  unfold setRetransmissionTimeout, w5100_setRetransmissionTime. run.
  unfold to_uint16. destruct (Z.gtb_spec x 6553).
  - rewrite Z.min_r by lia. reflexivity.
  - rewrite Z.min_l by lia. apply Z.mod_small. lia.
Qed.

(** X11: on [uint16_t] inputs the value [setRetransmissionTimeout] stores is
    monotone in the input (the clamp keeps the multiplication from wrapping
    round), is 65530 for every input from 6553 up, and below that is ten
    times the input, so the input is recovered by dividing by ten. *)
Theorem setRetransmissionTimeout_monotone : forall (x y : Z) (s : Eth),
  0 <= x -> x <= y -> y < 65536 ->
  let stored := fun v => RTR (_w5100 (state (setRetransmissionTimeout v s))) in
  stored x <= stored y /\
  (6553 <= x -> stored x = 65530) /\
  (x <= 6553 -> stored x = x * 10 /\ stored x / 10 = x).
Proof.
  intros x y s Hx Hxy Hy stored. subst stored. cbv beta.
  rewrite !setRetransmissionTimeout_RTR by lia.
  split; [lia|]. split; intros H.
  - rewrite Z.min_r by lia. reflexivity.
  - rewrite Z.min_l by lia. split; [reflexivity|]. apply Z.div_mul. lia.
Qed.

(** X12: two accessor or mutator calls that do not write the same register
    commute: either order leaves the same object.  This covers every pair
    of distinct mutators, such as the two retransmission mutators, and every
    pair with a getter. *)
Theorem accessors_on_different_registers_commute :
  forall (a b : accessor) (s : Eth),
  (written a = written b -> written a = None) ->
  state (run_accessor b (state (run_accessor a s)))
  = state (run_accessor a (state (run_accessor b s))).
Proof.
  intros a b [dns p w] H.
  destruct a, b; cbn [written] in H;
    first [reflexivity|specialize (H eq_refl); discriminate H].
Qed.

(** *** Static bring-up on an object that has a negotiator *)

Lemma run_call_static_keeps_dhcp : forall (c : call) (s : Eth),
  is_begin_static c = true -> _dhcp (state (run_call c s)) = _dhcp s.
Proof.
  intros c s H.
  destruct c; try discriminate H; cbn [run_call];
    unfold begin_ip, begin_ip_dns, begin_ip_dns_gateway; cbn zeta;
    rewrite begin_static_paths; cbn zeta;
    destruct (fst (W5100_init (_w5100 s)) =? 0); reflexivity.
Qed.

(** X13: a static bring-up, by any of the four overloads, keeps the
    negotiator pointer, so on an object that has a negotiator a later
    [maintain] still runs the lease check, and when that reports renew-ok or
    rebind-ok the negotiator's addresses replace the static ones in the chip
    and in the DNS cache.  The check codes are distinct case labels. *)
Theorem static_bring_up_keeps_negotiator : forall (c : call) (s : Eth) (d : DhcpClass),
  is_begin_static c = true ->
  _dhcp s = Some d ->
  DHCP_CHECK_NONE <> DHCP_CHECK_RENEW_OK ->
  DHCP_CHECK_NONE <> DHCP_CHECK_REBIND_OK ->
  let s1 := state (run_call c s) in
  let rc := fst (fst (checkLease d (_w5100 s1))) in
  let d' := snd (fst (checkLease d (_w5100 s1))) in
  _dhcp s1 = Some d /\
  result (maintain s1) = rc /\
  (exists rest, trace (maintain s1) = checkLease_call :: rest) /\
  (rc = DHCP_CHECK_RENEW_OK \/ rc = DHCP_CHECK_REBIND_OK ->
   SIPR (_w5100 (state (maintain s1))) = getLocalIp d' /\
   GAR (_w5100 (state (maintain s1))) = getGatewayIp d' /\
   SUBR (_w5100 (state (maintain s1))) = getSubnetMask d' /\
   _dnsServerAddress (state (maintain s1)) = getDnsServerIp d').
Proof.
  intros c s d Hc Hd Hrenew Hrebind s1 rc d'.
  assert (H1 : _dhcp s1 = Some d).
  { subst s1. rewrite (run_call_static_keeps_dhcp c s Hc). exact Hd. }
  split; [exact H1|].
  rewrite (maintain_paths s1 d H1). cbn zeta. fold rc. fold d'.
  destruct (Z.eqb_spec rc DHCP_CHECK_NONE) as [En|En].
  - split; [reflexivity|]. split; [eexists; reflexivity|].
    intros Hrc. exfalso. destruct Hrc; congruence.
  - destruct ((rc =? DHCP_CHECK_RENEW_OK) || (rc =? DHCP_CHECK_REBIND_OK)) eqn:Hor.
    + split; [reflexivity|]. split; [eexists; reflexivity|].
      intros _. repeat split.
    + split; [reflexivity|]. split; [eexists; reflexivity|].
      intros Hrc. exfalso. apply orb_false_iff in Hor. destruct Hor as [Hr Hb].
      apply Z.eqb_neq in Hr, Hb. destruct Hrc; contradiction.
Qed.

(** *** One collaborator call per public call *)

Lemma run_call_counts : forall (c : call) (s : Eth),
  count is_init_event (trace (run_call c s))
  = (if is_bring_up c then 1 else 0)%nat /\
  count is_checkLease_event (trace (run_call c s))
  = (if is_maintain c then match _dhcp s with Some _ => 1 | None => 0 end else 0)%nat /\
  (count is_beginWithDHCP_event (trace (run_call c s))
   <= if is_begin_DHCP c then 1 else 0)%nat.
Proof.
  intros c [a p w].
  destruct c as [mac t rt now| | | | | | | |acc]; [| | | | | | | |destruct acc];
    cbn [run_call is_bring_up is_begin_DHCP is_begin_static is_maintain orb];
    members; run; break; repeat split; auto.
Qed.

(** X14: the manager never retries.  In any sequence of public calls the
    number of [init] calls is the number of bring-up calls, the number of
    negotiations is at most the number of DHCP bring-ups, and on an object
    that has a negotiator the number of lease checks is the number of
    [maintain] calls. *)
Theorem one_collaborator_call_per_public_call : forall (cs : list call) (s : Eth),
  count is_init_event (trace (run_calls cs s)) = length (filter is_bring_up cs) /\
  (count is_beginWithDHCP_event (trace (run_calls cs s))
   <= length (filter is_begin_DHCP cs))%nat /\
  (_dhcp s <> None ->
   count is_checkLease_event (trace (run_calls cs s))
   = length (filter is_maintain cs)).
Proof.
  induction cs as [|c cs IH]; intros s.
  - repeat split. apply Nat.le_refl.
  - cbn [run_calls filter]. rewrite trace_bind, !count_app.
    destruct (run_call_counts c s) as (Hi & Hc & Hb).
    destruct (IH (state (run_call c s))) as (IHi & IHb & IHc).
    split; [|split].
    + rewrite Hi, IHi. destruct (is_bring_up c); reflexivity.
    + destruct (is_begin_DHCP c); cbn [length]; lia.
    + intros Hs. rewrite Hc, IHc.
      * destruct (_dhcp s); [|contradiction].
        destruct (is_maintain c); reflexivity.
      * intros Hn. apply (run_call_negotiator c s) in Hn. destruct Hn as [Hn _].
        contradiction.
Qed.

End Manager.

(** ** Concrete runs *)

#[local] Existing Instance demo_negotiator.

(** The bring-up scenario: DHCP succeeds with the lease 10.0.0.5 / 10.0.0.1
    / 255.255.255.0 / 8.8.8.8; afterwards the accessors read these addresses
    and the cached DNS address is 8.8.8.8. *)
Example dhcp_bring_up_scenario :
  let r := begin_DHCP (negotiator := demo_negotiator) init_responding
             demo_mac 60000 4000 123456 demo_fresh in
  result r = 1 /\ state r = demo_bound /\
  result (localIP (state r)) = mkIP 10 0 0 5 /\
  result (gatewayIP (state r)) = mkIP 10 0 0 1 /\
  result (subnetMask (state r)) = mkIP 255 255 255 0 /\
  _dnsServerAddress (state r) = mkIP 8 8 8 8.
Proof. cbv zeta. repeat split. Qed.

(** The rebind scenario: [localIP] reads 10.0.0.5 before [maintain] and
    10.0.0.9 after it. *)
Example rebind_scenario :
  result (localIP demo_bound) = mkIP 10 0 0 5 /\
  result (maintain (negotiator := demo_negotiator) demo_bound) = 4 /\
  result (localIP (state (maintain (negotiator := demo_negotiator) demo_bound)))
  = mkIP 10 0 0 9.
Proof. repeat split. Qed.

(** C1, as stated, fails: on the identity code 0x51 the code returns
    no-hardware where the claim says variant A, and on the code 51, which
    the claim sends to none, the code returns W5100. *)
Lemma hardwareStatus_hex_codes_counterexample :
  chip (_w5100 chip_0x51_object) = 0x51 /\
  hardwareStatus_spec (chip (_w5100 chip_0x51_object)) = EthernetW5100 /\
  result (hardwareStatus chip_0x51_object) = EthernetNoHardware /\
  hardwareStatus_spec (chip (_w5100 chip_51_object)) = EthernetNoHardware /\
  result (hardwareStatus chip_51_object) = EthernetW5100 /\
  ~ (forall s : EthernetClass ScriptedDhcp,
       result (hardwareStatus s) = hardwareStatus_spec (chip (_w5100 s))).
Proof.
  repeat split. intros H. specialize (H chip_0x51_object). discriminate H.
Qed.

Lemma hardwareStatus_decimal_codes_witness :
  chip (_w5100 chip_51_object) = 51 /\
  result (hardwareStatus chip_51_object) = EthernetW5100.
Proof.
  assert (H : chip (_w5100 chip_51_object) = 51) by reflexivity.
  split; [exact H|].
  destruct (hardwareStatus_decimal_codes chip_51_object) as (_ & _ & T & _).
  exact (T H).
Defined.

Lemma begin_ip_chained_defaults_witness :
  fst (init_responding (_w5100 demo_fresh)) <> 0 /\
  _dnsServerAddress
    (state (begin_ip init_responding demo_mac (mkIP 192 168 1 50) demo_fresh))
  = mkIP 192 168 1 1 /\
  GAR (_w5100 (state (begin_ip init_responding demo_mac (mkIP 192 168 1 50) demo_fresh)))
  = mkIP 192 168 1 1 /\
  SUBR (_w5100 (state (begin_ip init_responding demo_mac (mkIP 192 168 1 50) demo_fresh)))
  = mkIP 255 255 255 0.
Proof.
  assert (H : fst (init_responding (_w5100 demo_fresh)) <> 0) by (cbn; discriminate).
  split; [exact H|].
  destruct (begin_ip_chained_defaults init_responding demo_mac
              (mkIP 192 168 1 50) demo_fresh) as (_ & _ & _ & T).
  destruct (T H) as (T1 & T2 & T3 & _).
  repeat split; assumption.
Defined.

Lemma setRetransmissionTimeout_clamps_witness :
  0 <= 7000 < 65536 /\
  RTR (_w5100 (state (setRetransmissionTimeout 7000 demo_fresh)))
  = Z.min 7000 6553 * 10.
Proof.
  assert (H : 0 <= 7000 < 65536) by (split; [discriminate|reflexivity]).
  split; [exact H|].
  exact (proj1 (proj2 (setRetransmissionTimeout_clamps 7000 demo_fresh H))).
Defined.

Lemma maintain_with_negotiator_witness :
  _dhcp demo_bound = Some demo_bound_negotiator /\
  DHCP_CHECK_NONE <> DHCP_CHECK_RENEW_OK /\
  DHCP_CHECK_NONE <> DHCP_CHECK_REBIND_OK /\
  result (maintain (negotiator := demo_negotiator) demo_bound) = 4 /\
  SIPR (_w5100 (state (maintain (negotiator := demo_negotiator) demo_bound)))
  = mkIP 10 0 0 9 /\
  _dnsServerAddress (state (maintain (negotiator := demo_negotiator) demo_bound))
  = mkIP 8 8 4 4.
Proof.
  assert (H1 : DHCP_CHECK_NONE <> DHCP_CHECK_RENEW_OK)
    by (cbn; discriminate).
  assert (H2 : DHCP_CHECK_NONE <> DHCP_CHECK_REBIND_OK)
    by (cbn; discriminate).
  destruct (maintain_with_negotiator (negotiator := demo_negotiator)
              demo_bound demo_bound_negotiator eq_refl H1 H2) as (R & P & _).
  destruct (P (or_intror eq_refl)) as (_ & S).
  split; [reflexivity|]. split; [exact H1|]. split; [exact H2|].
  split; [exact R|]. rewrite S. split; reflexivity.
Defined.

Lemma maintain_before_DHCP_bring_up_witness :
  existsb is_begin_DHCP
    [call_begin_ip demo_mac (mkIP 192 168 1 50); call_accessor call_localIP] = false /\
  result (maintain (negotiator := demo_negotiator)
            (state (run_calls (negotiator := demo_negotiator) init_responding
                      [call_begin_ip demo_mac (mkIP 192 168 1 50);
                       call_accessor call_localIP]
                      (EthernetClass_ctor blank_chip)))) = 0 /\
  trace (maintain (negotiator := demo_negotiator)
           (state (run_calls (negotiator := demo_negotiator) init_responding
                     [call_begin_ip demo_mac (mkIP 192 168 1 50);
                      call_accessor call_localIP]
                     (EthernetClass_ctor blank_chip)))) = [].
Proof.
  destruct (maintain_before_DHCP_bring_up (negotiator := demo_negotiator)
              init_responding blank_chip
              [call_begin_ip demo_mac (mkIP 192 168 1 50); call_accessor call_localIP]
              eq_refl) as (_ & E & _).
  split; [reflexivity|]. rewrite E. split; reflexivity.
Defined.

Lemma begin_init_failure_witness :
  fst (init_silent (_w5100 demo_fresh)) = 0 /\
  result (begin_DHCP (negotiator := demo_negotiator) init_silent
            demo_mac 60000 4000 123456 demo_fresh) = 0 /\
  trace (begin_DHCP (negotiator := demo_negotiator) init_silent
           demo_mac 60000 4000 123456 demo_fresh)
  = [new_DhcpClass; w5100 init_call] /\
  begin_ip_dns_gateway_subnet init_silent demo_mac (mkIP 192 168 1 50)
    (mkIP 192 168 1 1) (mkIP 192 168 1 1) (mkIP 255 255 255 0) demo_fresh
  = (tt, demo_fresh, [w5100 init_call]).
Proof.
  destruct (begin_init_failure (negotiator := demo_negotiator) init_silent
              demo_mac 60000 4000 123456 (mkIP 192 168 1 50)
              (mkIP 192 168 1 1) (mkIP 192 168 1 1) (mkIP 255 255 255 0)
              demo_fresh eq_refl) as ((R & T & _) & S).
  split; [reflexivity|]. split; [exact R|]. split; [exact T|exact S].
Defined.

Lemma accessor_single_bus_bracket_witness :
  exists c : chip_call,
    trace (run_accessor (call_setRetransmissionTimeout 7000) demo_fresh)
    = [beginTransaction; w5100 c; endTransaction].
Proof.
  destruct (accessor_single_bus_bracket (call_setRetransmissionTimeout 7000) demo_fresh)
    as (c & T & _).
  exists c. exact T.
Defined.

Lemma begin_DHCP_bus_free_during_negotiation_witness :
  trace (begin_DHCP init_responding demo_mac 60000 4000 123456 demo_fresh)
  = [new_DhcpClass; w5100 init_call; beginTransaction;
     w5100 (setMACAddress_call demo_mac);
     w5100 (setIPAddress_call (mkIP 0 0 0 0)); endTransaction]
    ++ beginWithDHCP_call demo_mac 60000 4000
    :: publication demo_bound_negotiator ++ [socketPortRand 123456] /\
  is_negotiator_call (beginWithDHCP_call demo_mac 60000 4000) = true /\
  open_after 0
    [new_DhcpClass; w5100 init_call; beginTransaction;
     w5100 (setMACAddress_call demo_mac);
     w5100 (setIPAddress_call (mkIP 0 0 0 0)); endTransaction] = 0%nat.
Proof.
  assert (T : trace (begin_DHCP init_responding demo_mac 60000 4000 123456 demo_fresh)
              = [new_DhcpClass; w5100 init_call; beginTransaction;
                 w5100 (setMACAddress_call demo_mac);
                 w5100 (setIPAddress_call (mkIP 0 0 0 0)); endTransaction]
                ++ beginWithDHCP_call demo_mac 60000 4000
                :: publication demo_bound_negotiator ++ [socketPortRand 123456])
    by reflexivity.
  split; [exact T|]. split; [reflexivity|].
  destruct (proj2 (begin_DHCP_bus_free_during_negotiation init_responding
                     demo_mac 60000 4000 123456 demo_fresh) _ _ _ T eq_refl)
    as (_ & O & _).
  exact O.
Defined.

Lemma negotiator_created_once_witness :
  _dhcp (state (run_calls init_responding
                  [call_begin_DHCP demo_mac 60000 4000 123456]
                  (EthernetClass_ctor blank_chip)))
  = Some demo_bound_negotiator /\
  count is_new
    (trace (run_calls init_responding
              [call_begin_DHCP demo_mac 60000 4000 123456]
              (EthernetClass_ctor blank_chip))) = 1%nat /\
  count is_new
    (trace (begin_DHCP init_responding demo_mac 60000 4000 999
              (state (run_calls init_responding
                        [call_begin_DHCP demo_mac 60000 4000 123456]
                        (EthernetClass_ctor blank_chip))))) = 0%nat.
Proof.
  destruct (negotiator_created_once init_responding blank_chip
              [call_begin_DHCP demo_mac 60000 4000 123456])
    as (_ & N & _ & _ & R).
  destruct (R demo_mac 60000 4000 999 demo_bound_negotiator eq_refl) as (N' & _).
  split; [reflexivity|]. split; [exact N|exact N'].
Defined.

Lemma maintain_consults_negotiator_after_begin_DHCP_witness :
  result (begin_DHCP init_silent demo_mac 60000 4000 123456 demo_fresh) = 0 /\
  exists d : ScriptedDhcp,
    _dhcp (state (run_calls init_silent [call_linkStatus]
                    (state (begin_DHCP init_silent demo_mac 60000 4000 123456
                              demo_fresh)))) = Some d /\
    exists rest : list event,
      trace (maintain
               (state (run_calls init_silent [call_linkStatus]
                         (state (begin_DHCP init_silent demo_mac 60000 4000 123456
                                   demo_fresh)))))
      = checkLease_call :: rest.
Proof.
  split; [reflexivity|].
  destruct (maintain_consults_negotiator_after_begin_DHCP init_silent
              demo_mac 60000 4000 123456 demo_fresh [call_linkStatus])
    as (d & Hd & _ & rest & Hr).
  exists d. split; [exact Hd|]. exists rest. exact Hr.
Defined.

(** ** Concrete runs of the further properties *)



Lemma begin_static_publishes_arguments_witness :
  fst (init_responding (_w5100 demo_fresh)) <> 0 /\
  SIPR (_w5100 (state (begin_ip_dns_gateway_subnet init_responding demo_mac
                         (mkIP 192 168 1 50) (mkIP 9 9 9 9) (mkIP 192 168 1 254)
                         (mkIP 255 255 0 0) demo_fresh)))
  = mkIP 192 168 1 50 /\
  _dnsServerAddress (state (begin_ip_dns_gateway_subnet init_responding demo_mac
                              (mkIP 192 168 1 50) (mkIP 9 9 9 9) (mkIP 192 168 1 254)
                              (mkIP 255 255 0 0) demo_fresh))
  = mkIP 9 9 9 9.
Proof.
  assert (H : fst (init_responding (_w5100 demo_fresh)) <> 0) by (cbn; discriminate).
  split; [exact H|].
  destruct (begin_static_publishes_arguments init_responding demo_mac
              (mkIP 192 168 1 50) (mkIP 9 9 9 9) (mkIP 192 168 1 254)
              (mkIP 255 255 0 0) demo_fresh H) as (_ & _ & _ & D & _ & I & _).
  split; [exact I|exact D].
Defined.

Lemma begin_partial_overloads_defaults_witness :
  fst (init_responding (_w5100 demo_fresh)) <> 0 /\
  _dnsServerAddress (state (begin_ip_dns init_responding demo_mac
                              (mkIP 192 168 1 50) (mkIP 9 9 9 9) demo_fresh))
  = mkIP 9 9 9 9 /\
  GAR (_w5100 (state (begin_ip_dns init_responding demo_mac
                        (mkIP 192 168 1 50) (mkIP 9 9 9 9) demo_fresh)))
  = mkIP 192 168 1 1.
Proof.
  assert (H : fst (init_responding (_w5100 demo_fresh)) <> 0) by (cbn; discriminate).
  split; [exact H|].
  destruct (begin_partial_overloads_defaults init_responding demo_mac
              (mkIP 192 168 1 50) (mkIP 9 9 9 9) (mkIP 192 168 1 254) demo_fresh)
    as (_ & _ & T).
  destruct (T H) as (D & G & _).
  split; [exact D|exact G].
Defined.

Lemma begin_DHCP_outcome_witness :
  fst (init_responding (_w5100 demo_fresh)) <> 0 /\
  result (begin_DHCP init_responding demo_mac 60000 4000 123456 demo_fresh) = 1 /\
  count is_acquire
    (trace (begin_DHCP init_responding demo_mac 60000 4000 123456 demo_fresh))
  = 2%nat.
Proof.
  assert (H : fst (init_responding (_w5100 demo_fresh)) <> 0) by (cbn; discriminate).
  split; [exact H|].
  destruct (begin_DHCP_outcome (negotiator := demo_negotiator) init_responding demo_mac 60000 4000 123456
              demo_fresh H) as (_ & _ & R & _ & P & _).
  split; [exact R|].
  destruct (P ltac:(reflexivity)) as (A & _). exact A.
Defined.

Lemma begin_DHCP_addresses_read_back_witness :
  fst (init_responding (_w5100 demo_fresh)) <> 0 /\
  result (localIP (state (begin_DHCP init_responding demo_mac 60000 4000 123456
                            demo_fresh)))
  = mkIP 10 0 0 5.
Proof.
  assert (H : fst (init_responding (_w5100 demo_fresh)) <> 0) by (cbn; discriminate).
  split; [exact H|].
  destruct (begin_DHCP_addresses_read_back (negotiator := demo_negotiator) init_responding demo_mac 60000 4000
              123456 demo_fresh H ltac:(reflexivity)) as (L & _).
  exact L.
Defined.

Lemma maintain_addresses_read_back_witness :
  _dhcp demo_bound = Some demo_bound_negotiator /\
  result (localIP demo_bound) = mkIP 10 0 0 5 /\
  result (localIP (state (maintain demo_bound))) = mkIP 10 0 0 9.
Proof.
  assert (H1 : DHCP_CHECK_NONE <> DHCP_CHECK_RENEW_OK) by (cbn; discriminate).
  assert (H2 : DHCP_CHECK_NONE <> DHCP_CHECK_REBIND_OK) by (cbn; discriminate).
  destruct (maintain_addresses_read_back (negotiator := demo_negotiator) demo_bound demo_bound_negotiator
              eq_refl H1 H2 ltac:(right; reflexivity)) as (L & _).
  split; [reflexivity|]. split; [reflexivity|exact L].
Defined.

Lemma mutator_getter_round_trip_witness :
  result (localIP (state (setLocalIP (mkIP 172 16 0 7) demo_bound)))
  = mkIP 172 16 0 7.
Proof.
  exact (proj1 (mutator_getter_round_trip (mkIP 172 16 0 7) (mkIP 0 0 0 0)
                  demo_mac demo_bound)).
Defined.

Lemma accessor_changes_only_its_register_witness :
  written (call_setLocalIP (mkIP 172 16 0 7)) <> Some GAR_reg /\
  GAR (_w5100 (state (run_accessor (call_setLocalIP (mkIP 172 16 0 7)) demo_bound)))
  = mkIP 10 0 0 1.
Proof.
  assert (H : written (call_setLocalIP (mkIP 172 16 0 7)) <> Some GAR_reg)
    by (cbn; discriminate).
  split; [exact H|].
  destruct (accessor_changes_only_its_register (call_setLocalIP (mkIP 172 16 0 7))
              demo_bound) as (_ & _ & _ & _ & _ & _ & G & _).
  exact (G H).
Defined.

Lemma read_only_calls_keep_object_witness :
  forallb is_read_only
    [call_linkStatus; call_accessor call_localIP; call_hardwareStatus] = true /\
  state (run_calls init_responding
           [call_linkStatus; call_accessor call_localIP; call_hardwareStatus]
           demo_bound)
  = demo_bound.
Proof.
  split; [reflexivity|].
  exact (proj1 (read_only_calls_keep_object (negotiator := demo_negotiator) init_responding
                  [call_linkStatus; call_accessor call_localIP; call_hardwareStatus]
                  demo_bound eq_refl)).
Defined.

Lemma setRetransmissionTimeout_monotone_witness :
  0 <= 6000 /\ 6000 <= 7000 /\ 7000 < 65536 /\
  RTR (_w5100 (state (setRetransmissionTimeout 6000 demo_fresh)))
  <= RTR (_w5100 (state (setRetransmissionTimeout 7000 demo_fresh))).
Proof.
  assert (H1 : 0 <= 6000) by discriminate.
  assert (H2 : 6000 <= 7000) by discriminate.
  assert (H3 : 7000 < 65536) by reflexivity.
  split; [exact H1|]. split; [exact H2|]. split; [exact H3|].
  exact (proj1 (setRetransmissionTimeout_monotone 6000 7000 demo_fresh H1 H2 H3)).
Defined.

Lemma accessors_on_different_registers_commute_witness :
  state (run_accessor (call_setRetransmissionCount 3)
           (state (run_accessor (call_setRetransmissionTimeout 7000) demo_bound)))
  = state (run_accessor (call_setRetransmissionTimeout 7000)
             (state (run_accessor (call_setRetransmissionCount 3) demo_bound))).
Proof.
  apply (accessors_on_different_registers_commute
           (call_setRetransmissionTimeout 7000) (call_setRetransmissionCount 3)
           demo_bound).
  cbn. intros H. discriminate H.
Defined.

Lemma static_bring_up_keeps_negotiator_witness :
  is_begin_static (call_begin_ip demo_mac (mkIP 192 168 1 50)) = true /\
  _dhcp demo_bound = Some demo_bound_negotiator /\
  SIPR (_w5100 (state (run_call init_responding
                         (call_begin_ip demo_mac (mkIP 192 168 1 50)) demo_bound)))
  = mkIP 192 168 1 50 /\
  SIPR (_w5100 (state (maintain
                         (state (run_call init_responding
                                   (call_begin_ip demo_mac (mkIP 192 168 1 50))
                                   demo_bound)))))
  = mkIP 10 0 0 9.
Proof.
  assert (H1 : DHCP_CHECK_NONE <> DHCP_CHECK_RENEW_OK) by (cbn; discriminate).
  assert (H2 : DHCP_CHECK_NONE <> DHCP_CHECK_REBIND_OK) by (cbn; discriminate).
  destruct (static_bring_up_keeps_negotiator (negotiator := demo_negotiator) init_responding
              (call_begin_ip demo_mac (mkIP 192 168 1 50)) demo_bound
              demo_bound_negotiator eq_refl eq_refl H1 H2) as (_ & _ & _ & P).
  destruct (P ltac:(right; reflexivity)) as (I & _).
  split; [reflexivity|]. split; [reflexivity|]. split; [reflexivity|exact I].
Defined.

Lemma one_collaborator_call_per_public_call_witness :
  _dhcp demo_bound <> None /\
  count is_checkLease_event
    (trace (run_calls init_responding
              [call_maintain; call_linkStatus; call_maintain] demo_bound))
  = 2%nat.
Proof.
  assert (H : _dhcp demo_bound <> None) by (cbn; discriminate).
  split; [exact H|].
  destruct (one_collaborator_call_per_public_call (negotiator := demo_negotiator) init_responding
              [call_maintain; call_linkStatus; call_maintain] demo_bound)
    as (_ & _ & C).
  exact (C H).
Defined.
